(** * tableau4go: the REST client of client.go

    A shallow embedding of [client.go]: the session value, the request
    dispatcher [makeRequest] and the operations built on it, with the
    properties of the dispatcher and of the session that the
    specification states.

    Strings are byte strings ([string] of [ascii]), [[]byte] and [string]
    are identified, and a possibly-nil slice or pointer is an [option].
    The network, the standard output and the session are threaded through
    every method as an explicit state. *)

From Stdlib Require Import String Ascii ZArith List Bool Lia DecimalString.
From stdpp Require Import base option list strings gmap.

Local Open Scope string_scope.
Local Open Scope Z_scope.
Local Open Scope list_scope.
Local Open Scope stdpp_scope.

(** ** Constants of client.go *)

Definition content_type_header : string := "Content-Type".
Definition content_length_header : string := "Content-Length".
Definition auth_header : string := "X-Tableau-Auth".
Definition application_xml_content_type : string := "application/xml".
Definition POST : string := "POST".
Definition GET : string := "GET".
Definition DELETE : string := "DELETE".

(** Characters that a string literal cannot hold directly. *)
Definition dquote : string := String (ascii_of_nat 34) EmptyString.
Definition CRLF : string :=
  String (ascii_of_nat 13) (String (ascii_of_nat 10) EmptyString).
Definition LF : string := String (ascii_of_nat 10) EmptyString.

(** [strconv.Itoa] on a length. *)
Definition Itoa (n : nat) : string := NilZero.string_of_uint (Nat.to_uint n).

(** [%v] of a [bool]. *)
Definition fmt_bool (b : bool) : string := if b then "true" else "false".

(** [time.Duration]: a number of nanoseconds. *)
Definition Duration : Type := Z.
Definition Second : Duration := 1000000000.

(** ** Data model *)

(** Modelled from the spec: the declaration of [API] is not in client.go;
    these are the fields client.go reads or writes (the session state of
    the specification: server base URL, API version, default site name,
    the omit-default-site-name flag, current auth token, multipart
    boundary). *)
Record API := {
  Server : string;
  Version : string;
  Boundary : string;
  AuthToken : string;
  OmitDefaultSiteName : bool;
  DefaultSiteName : string
}.

Definition set_AuthToken (token : string) (a : API) : API :=
  {| Server := Server a; Version := Version a; Boundary := Boundary a;
     AuthToken := token;
     OmitDefaultSiteName := OmitDefaultSiteName a;
     DefaultSiteName := DefaultSiteName a |}.

(** Modelled from the spec: the entity declarations are not in client.go;
    each record carries the fields client.go names.  A [*T] field is an
    [option]. *)
Record User := { User_ID : string }.

Record Site := { Site_ID : string; ContentUrl : string }.

Record Credentials := {
  Cred_Name : string;
  Password : string;
  Token : string;
  Impersonate : option User;
  Cred_Site : option Site
}.

Record SigninRequest := { Signin_Request : Credentials }.

Record AuthResponse := { Auth_Credentials : Credentials }.

Record Project := { Project_ID : string; Project_Name : string }.

Record Datasource := { Datasource_Name : string }.

Record CreateProjectRequest := { CreateProject_Request : Project }.

Record DatasourceCreateRequest := { DatasourceCreate_Request : Datasource }.

Record CreateProjectResponse := { Created_Project : Project }.

Record QuerySiteResponse := { Response_Site : Site }.

Record QuerySitesResponse := { Response_Sites : list Site }.

Record QueryUserOnSiteResponse := { Response_User : User }.

Record QueryProjectsResponse := { Response_Projects : list Project }.

Record QueryDatasourcesResponse := { Response_Datasources : list Datasource }.

(** Zero values ([T{}]). *)
Class Zero (T : Type) := zero : T.

#[global] Instance User_zero : Zero User := {| User_ID := "" |}.
#[global] Instance Site_zero : Zero Site := {| Site_ID := ""; ContentUrl := "" |}.
#[global] Instance Credentials_zero : Zero Credentials :=
  {| Cred_Name := ""; Password := ""; Token := "";
     Impersonate := None; Cred_Site := None |}.
#[global] Instance AuthResponse_zero : Zero AuthResponse :=
  {| Auth_Credentials := zero |}.
#[global] Instance Project_zero : Zero Project :=
  {| Project_ID := ""; Project_Name := "" |}.
#[global] Instance Datasource_zero : Zero Datasource :=
  {| Datasource_Name := "" |}.
#[global] Instance CreateProjectResponse_zero : Zero CreateProjectResponse :=
  {| Created_Project := zero |}.
#[global] Instance QuerySiteResponse_zero : Zero QuerySiteResponse :=
  {| Response_Site := zero |}.
#[global] Instance QuerySitesResponse_zero : Zero QuerySitesResponse :=
  {| Response_Sites := [] |}.
#[global] Instance QueryUserOnSiteResponse_zero : Zero QueryUserOnSiteResponse :=
  {| Response_User := zero |}.
#[global] Instance QueryProjectsResponse_zero : Zero QueryProjectsResponse :=
  {| Response_Projects := [] |}.
#[global] Instance QueryDatasourcesResponse_zero : Zero QueryDatasourcesResponse :=
  {| Response_Datasources := [] |}.

(** ** HTTP requests *)

(** [http.Header]: a map from canonical header names to the values added
    under that name, in the order they were added. *)
Module Header.

Definition Values (canon : string -> string) (key : string)
    (h : gmap string (list string)) : list string :=
  default [] (h !! canon key).

Definition Add (canon : string -> string) (key value : string)
    (h : gmap string (list string)) : gmap string (list string) :=
  <[canon key := Values canon key h ++ [value]]> h.

Definition Get (canon : string -> string) (key : string)
    (h : gmap string (list string)) : string :=
  match Values canon key h with
  | v :: _ => v
  | [] => ""
  end.

End Header.

(** The client built by [NewTimeoutClient(cTimeout, rwTimeout, false)]. *)
Record Client := {
  connectTimeout : Duration;
  rwTimeout : Duration;
  useProxy : bool
}.

Definition NewTimeoutClient (cTimeout rwTimeout : Duration) (proxy : bool) : Client :=
  {| connectTimeout := cTimeout; rwTimeout := rwTimeout; useProxy := proxy |}.

(** What [http.NewRequest] was given (method, URL, body; [None] is the nil
    reader) and the header that [makeRequest] then fills in. *)
Record Request := {
  Method : string;
  URL : string;
  Body : option string;
  Header : gmap string (list string)
}.

Definition set_Header (h : gmap string (list string)) (r : Request) : Request :=
  {| Method := Method r; URL := URL r; Body := Body r; Header := h |}.

(** [*http.Response]: the status code and the body stream, still to be
    read. *)
Record Response (Stream : Type) := {
  StatusCode : Z;
  Resp_Body : Stream
}.
Arguments StatusCode {Stream} _.
Arguments Resp_Body {Stream} _.

(** ** What client.go takes from outside *)

(** Go's standard library and the network, as far as client.go uses
    them. *)
Record GoLib := {
  (** error values of net/http and io, and of encoding/xml *)
  net_error : Type;
  xml_error : Type;
  (** [strings.TrimSpace] *)
  TrimSpace : string -> string;
  (** [textproto.CanonicalMIMEHeaderKey], applied by [Header.Add] *)
  CanonicalMIMEHeaderKey : string -> string;
  (** the validation done by [http.NewRequest method url] *)
  NewRequest_check : string -> string -> option net_error;
  (** the remote side: servers and network *)
  Env : Type;
  Stream : Type;
  RoundTrip : Client -> Request -> Env -> (net_error + Response Stream) * Env;
  ReadAll : Stream -> Env -> (string * option net_error) * Env;
  Close : Stream -> Env -> Env;
  (** [xml.Unmarshal] into an interface value that holds no usable
      pointer: the first element is skipped *)
  xml_Skip : string -> option xml_error;
  (** encoding/csv *)
  csv_Reader : Type;
  csv_Reader_zero : csv_Reader;
  csv_NewReader : string -> csv_Reader;
  (** [url.Values] and its [Encode] *)
  url_Values : Type;
  Values_Encode : url_Values -> string
}.

(** The dynamic value of a [result interface{}] argument whose static
    pointee type is [T]: the nil interface, an interface holding a nil
    [*T], or one holding a pointer to a variable whose current content is
    [v]. *)
Inductive Target (T : Type) : Type :=
| nil_interface
| nil_pointer
| pointer (v : T).
Arguments nil_interface {T}.
Arguments nil_pointer {T}.
Arguments pointer {T} v.

(** The content of the variable behind a target after a call; a caller
    that passed no pointer keeps [old]. *)
Definition pointee {T : Type} (old : T) (r : Target T) : T :=
  match r with
  | pointer v => v
  | _ => old
  end.

(** How encoding/xml and a type assertion treat a pointee type:
    [xml_Unmarshal data v] is [xml.Unmarshal(data, &v)], giving the new
    content of [v] and the error; [assert_csv_Reader] is [Some] exactly
    when the type is [csv.Reader], so that the assertion of [result] to
    a pointer to [csv.Reader] succeeds. *)
Class Decodable (lib : GoLib) (T : Type) := {
  xml_Unmarshal : string -> T -> T * option (xml_error lib);
  assert_csv_Reader : option (csv_Reader lib -> T)
}.

(** Modelled from the spec: [ErrorResponse] is declared outside client.go;
    client.go reads its [Error] field, the structured error decoded from
    the server's error body. *)
Record ErrorResponse (TError : Type) := { Error : TError }.
Arguments Error {TError} _.

(** Modelled from the spec: the remaining envelope types, declared
    outside client.go, over entity types that client.go only passes
    on. *)
Record ServerInfoResponse (ServerInfoEntity : Type) := {
  Response_ServerInfo : ServerInfoEntity
}.
Arguments Response_ServerInfo {ServerInfoEntity} _.

Record QueryViewsResponse (View : Type) := { Response_Views : list View }.
Arguments Response_Views {View} _.

Record QueryWorkbooksResponse (Workbook : Type) := { Response_Workbooks : list Workbook }.
Arguments Response_Workbooks {Workbook} _.

(** The other files of the package, as far as client.go uses them: the
    structured error, the entities it passes on, the two standard
    timeouts, the [XML()] methods of the request types and the XML shape
    of every decoded type. *)
Class Package (lib : GoLib) := {
  TError : Type;
  TError_zero : TError;
  ServerInfoEntity : Type;
  ServerInfoEntity_zero : ServerInfoEntity;
  View : Type;
  Workbook : Type;
  connectTimeOut : Duration;
  readWriteTimeout : Duration;
  SigninRequest_XML : SigninRequest -> xml_error lib + string;
  CreateProjectRequest_XML : CreateProjectRequest -> xml_error lib + string;
  DatasourceCreateRequest_XML : DatasourceCreateRequest -> xml_error lib + string;
  decode_ErrorResponse : Decodable lib (ErrorResponse TError);
  decode_AuthResponse : Decodable lib AuthResponse;
  decode_ServerInfoResponse : Decodable lib (ServerInfoResponse ServerInfoEntity);
  decode_QuerySitesResponse : Decodable lib QuerySitesResponse;
  decode_QuerySiteResponse : Decodable lib QuerySiteResponse;
  decode_QueryUserOnSiteResponse : Decodable lib QueryUserOnSiteResponse;
  decode_QueryProjectsResponse : Decodable lib QueryProjectsResponse;
  decode_QueryViewsResponse : Decodable lib (QueryViewsResponse View);
  decode_QueryWorkbooksResponse : Decodable lib (QueryWorkbooksResponse Workbook);
  decode_QueryDatasourcesResponse : Decodable lib QueryDatasourcesResponse;
  decode_CreateProjectResponse : Decodable lib CreateProjectResponse;
  decode_Datasource : Decodable lib Datasource;
  decode_csv_Reader : Decodable lib (csv_Reader lib)
}.
Arguments TError {lib} _.
Arguments TError_zero {lib} _.
Arguments ServerInfoEntity {lib} _.
Arguments ServerInfoEntity_zero {lib} _.
Arguments View {lib} _.
Arguments Workbook {lib} _.
Arguments connectTimeOut {lib} _.
Arguments readWriteTimeout {lib} _.
Arguments SigninRequest_XML {lib} _ _.
Arguments CreateProjectRequest_XML {lib} _ _.
Arguments DatasourceCreateRequest_XML {lib} _ _.

#[global] Existing Instances
  decode_ErrorResponse decode_AuthResponse decode_ServerInfoResponse
  decode_QuerySitesResponse decode_QuerySiteResponse
  decode_QueryUserOnSiteResponse decode_QueryProjectsResponse
  decode_QueryViewsResponse decode_QueryWorkbooksResponse
  decode_QueryDatasourcesResponse decode_CreateProjectResponse
  decode_Datasource decode_csv_Reader.

(** ** Errors, state and the method monad *)

(** The [error] values that can leave client.go: the sentinel
    [ErrDoesNotExist], an error of net/http or io, an error of
    encoding/xml, the structured error of the server, and a
    [fmt.Errorf] message. *)
Inductive error {lib : GoLib} {pkg : Package lib} : Type :=
| ErrDoesNotExist
| NetError (e : net_error lib)
| XMLError (e : xml_error lib)
| ServerError (e : TError pkg)
| Errorf (msg : string).
Arguments error {lib} pkg.

(** What a method runs on: the session behind the receiver [api], the
    package variable [Debug], what was written to the standard output,
    the requests handed to the network so far, and the remote side. *)
Record State (lib : GoLib) := {
  session : API;
  Debug : bool;
  stdout : list string;
  wire : list (Client * Request);
  env : Env lib
}.
Arguments session {lib} _.
Arguments Debug {lib} _.
Arguments stdout {lib} _.
Arguments wire {lib} _.
Arguments env {lib} _.

(** A call returns a value or panics. *)
Inductive outcome (A : Type) : Type :=
| Returns (a : A)
| Panics.
Arguments Returns {A} a.
Arguments Panics {A}.

Definition Op (lib : GoLib) (A : Type) : Type := State lib -> outcome A * State lib.

Definition ret {lib : GoLib} {A : Type} (a : A) : Op lib A :=
  fun st => (Returns a, st).

Definition bind {lib : GoLib} {A B : Type} (m : Op lib A) (k : A -> Op lib B) : Op lib B :=
  fun st =>
    match m st with
    | (Returns a, st') => k a st'
    | (Panics, st') => (Panics, st')
    end.

Notation "'do' x <- c ; k" := (bind c (fun x => k))
  (at level 10, x name, c at level 100, k at level 200, only parsing).
Notation "'do' ' p <- c ; k" := (bind c (fun x => match x with p => k end))
  (at level 10, p pattern, c at level 100, k at level 200, only parsing).
Notation "'run' c ; k" := (bind c (fun _ => k))
  (at level 10, c at level 100, k at level 200, only parsing).

Section Client.

Context {lib : GoLib} {pkg : Package lib}.

Abbreviation Op := (Op lib).
Abbreviation error := (error pkg).

(** *** Primitive effects *)

Definition get_session : Op API :=
  fun st => (Returns (session st), st).

Definition put_AuthToken (token : string) : Op unit :=
  fun st =>
    (Returns tt,
     {| session := set_AuthToken token (session st); Debug := Debug st;
        stdout := stdout st; wire := wire st; env := env st |}).

Definition get_Debug : Op bool :=
  fun st => (Returns (Debug st), st).

(** [fmt.Printf], with the format already applied. *)
Definition Printf (s : string) : Op unit :=
  fun st =>
    (Returns tt,
     {| session := session st; Debug := Debug st;
        stdout := stdout st ++ [s]; wire := wire st; env := env st |}).

Definition when (b : bool) (m : Op unit) : Op unit :=
  if b then m else ret tt.

(** [client.Do(req)]: the request goes on the wire and the remote side
    answers. *)
Definition client_Do (client : Client) (req : Request)
  : Op (net_error lib + Response (Stream lib)) :=
  fun st =>
    let '(r, e) := RoundTrip lib client req (env st) in
    (Returns r,
     {| session := session st; Debug := Debug st; stdout := stdout st;
        wire := wire st ++ [(client, req)]; env := e |}).

(** [ioutil.ReadAll(body)] *)
Definition ioutil_ReadAll (body : Stream lib) : Op (string * option (net_error lib)) :=
  fun st =>
    let '(r, e) := ReadAll lib body (env st) in
    (Returns r,
     {| session := session st; Debug := Debug st; stdout := stdout st;
        wire := wire st; env := e |}).

(** [body.Close()] *)
Definition Body_Close (body : Stream lib) (st : State lib) : State lib :=
  {| session := session st; Debug := Debug st; stdout := stdout st;
     wire := wire st; env := Close lib body (env st) |}.

(** [defer cleanup]: [cleanup] runs when the rest of the function is
    left, by a return or by a panic. *)
Definition defer {A : Type} (cleanup : State lib -> State lib) (rest : Op A) : Op A :=
  fun st => let '(r, st') := rest st in (r, cleanup st').

(** *** The dispatcher *)

(** [http.NewRequest(method, url, body)] *)
Definition http_NewRequest (method url : string) (body : option string)
  : net_error lib + Request :=
  match NewRequest_check lib method url with
  | Some httpErr => inl httpErr
  | None => inr {| Method := method; URL := url; Body := body; Header := ∅ |}
  end.

(** [req.Header.Add(key, value)] *)
Definition Header_Add (key value : string) (req : Request) : Request :=
  set_Header (Header.Add (CanonicalMIMEHeaderKey lib) key value (Header req)) req.

(** The values a request carries under a header name. *)
Definition Header_Values (key : string) (req : Request) : list string :=
  Header.Values (CanonicalMIMEHeaderKey lib) key (Header req).

(** [for header, headerValue := range headers { req.Header.Add(...) }],
    the list being the entries of the map in the order the loop visits
    them. *)
Definition add_headers (headers : list (string * string)) (req : Request) : Request :=
  fold_left (fun r kv => Header_Add (fst kv) (snd kv) r) headers req.

(** [len(s) > 0] *)
Definition nonempty (s : string) : bool := (0 <? String.length s)%nat.

(** [len(payload)], [payload] being a possibly-nil slice. *)
Definition len (payload : option string) : nat :=
  match payload with
  | Some p => String.length p
  | None => 0%nat
  end.

(** Lines 358-383 of [makeRequest] without the trace: the request is
    created, with a Content-Length header when there is a payload, then
    the caller's headers are added, then the auth header when the
    session has a token. *)
Definition build_request (token : string) (requestURL method : string)
    (payload : option string) (headers : list (string * string))
  : net_error lib + Request :=
  let created :=
    if (0 <? len payload)%nat then
      match http_NewRequest (TrimSpace lib method) (TrimSpace lib requestURL) payload with
      | inl httpErr => inl httpErr
      | inr req => inr (Header_Add content_length_header (Itoa (len payload)) req)
      end
    else
      http_NewRequest (TrimSpace lib method) (TrimSpace lib requestURL) None in
  match created with
  | inl httpErr => inl httpErr
  | inr req =>
      let req := add_headers headers req in
      inr (if nonempty token then Header_Add auth_header token req else req)
  end.

(** A step that touches nothing: it returns or panics as [r] says. *)
Definition lift {A : Type} (r : outcome A) : Op A :=
  fun st => (r, st).

(** Lines 408-418 of [makeRequest]: the body of a response below 300
    is decoded into the target.  The nil interface is left alone.  For
    the format csv the target is asserted to point to a [csv.Reader]
    and written through, which panics on another type and on a nil
    pointer.  Otherwise the body goes to [xml.Unmarshal], which decodes
    into the variable behind a pointer and skips the element when the
    interface holds a nil pointer. *)
Definition decode_result {T : Type} `{!Decodable lib T}
    (body : string) (result : Target T) (format : string)
  : outcome (Target T * option error) :=
  match result with
  | nil_interface => Returns (result, None)
  | nil_pointer =>
      if String.eqb format "csv" then Panics
      else
        match xml_Skip lib body with
        | Some err => Returns (result, Some (XMLError err))
        | None => Returns (result, None)
        end
  | pointer v =>
      if String.eqb format "csv" then
        match assert_csv_Reader with
        | Some store => Returns (pointer (store (csv_NewReader lib body)), None)
        | None => Panics
        end
      else
        let '(v', err) := xml_Unmarshal body v in
        match err with
        | Some err => Returns (pointer v', Some (XMLError err))
        | None => Returns (pointer v', None)
        end
  end.

(** Lines 397-418 of [makeRequest]: what the call makes of a response
    whose body was read. *)
Definition interpret_response {T : Type} `{!Decodable lib T}
    (StatusCode : Z) (body : string) (result : Target T) (format : string)
  : outcome (Target T * option error) :=
  if StatusCode =? 404 then Returns (result, Some ErrDoesNotExist)
  else if 300 <=? StatusCode then
    let '(tErrorResponse, err) :=
      xml_Unmarshal body {| Error := TError_zero pkg |} in
    match err with
    | Some err => Returns (result, Some (XMLError err))
    | None => Returns (result, Some (ServerError (Error tErrorResponse)))
    end
  else decode_result body result format.

(** [makeRequest]: the value returned is the error, together with the
    target as the call leaves it. *)
Definition makeRequest {T : Type} `{!Decodable lib T}
    (requestURL method : string) (payload : option string)
    (result : Target T) (headers : list (string * string))
    (cTimeout rwTimeout : Duration) (format : string)
  : Op (Target T * option error) :=
  do debug <- get_Debug;
  run when debug
    (run Printf (method +:+ ":" +:+ requestURL +:+ LF);
     match payload with
     | Some p => Printf (p +:+ LF)
     | None => ret tt
     end);
  let client := NewTimeoutClient cTimeout rwTimeout false in
  do api <- get_session;
  match build_request (AuthToken api) requestURL method payload headers with
  | inl httpErr => ret (result, Some (NetError httpErr))
  | inr req =>
      run when (debug && nonempty (AuthToken api))
        (Printf (auth_header +:+ ":" +:+ AuthToken api +:+ LF));
      do answer <- client_Do client req;
      match answer with
      | inl httpErr => ret (result, Some (NetError httpErr))
      | inr resp =>
          defer (Body_Close (Resp_Body resp))
            (do '(body, readBodyError) <- ioutil_ReadAll (Resp_Body resp);
             run when debug (Printf ("t4g Response:" +:+ body +:+ LF));
             match readBodyError with
             | Some readBodyError => ret (result, Some (NetError readBodyError))
             | None => lift (interpret_response (StatusCode resp) body result format)
             end)
      end
  end.

(** The pointee type of a call that passes the nil interface. *)
#[export] Instance decode_nothing : Decodable lib Empty_set := {|
  xml_Unmarshal := fun _ (v : Empty_set) => match v with end;
  assert_csv_Reader := None
|}.

(** *** Authentication *)

Definition Signin (username password contentURL userIDToImpersonate : string)
  : Op (option error) :=
  do api <- get_session;
  let url := Server api +:+ "/api/" +:+ Version api +:+ "/auth/signin" in
  let impersonate :=
    if nonempty userIDToImpersonate
    then Some {| User_ID := userIDToImpersonate |} else None in
  let siteName := contentURL in
  let siteName :=
    if OmitDefaultSiteName api then
      if String.eqb contentURL (DefaultSiteName api) then "" else siteName
    else siteName in
  let credentials :=
    {| Cred_Name := username; Password := password; Token := "";
       Impersonate := impersonate;
       Cred_Site := Some {| Site_ID := ""; ContentUrl := siteName |} |} in
  let request := {| Signin_Request := credentials |} in
  match SigninRequest_XML pkg request with
  | inl err => ret (Some (XMLError err))
  | inr signInXML =>
      let payload := signInXML in
      let headers := [(content_type_header, application_xml_content_type)] in
      let retval : AuthResponse := zero in
      do '(result, err) <-
        makeRequest url POST (Some payload) (pointer retval) headers
          (connectTimeOut pkg) (readWriteTimeout pkg) "";
      let retval := pointee retval result in
      run match err with
          | None => put_AuthToken (Token (Auth_Credentials retval))
          | Some _ => ret tt
          end;
      ret err
  end.

Definition Signout : Op (option error) :=
  do api <- get_session;
  let url := Server api +:+ "/api/" +:+ Version api +:+ "/auth/signout" in
  let headers := [(content_type_header, application_xml_content_type)] in
  do '(_, err) <-
    makeRequest url POST None (@nil_interface Empty_set) headers
      (connectTimeOut pkg) (readWriteTimeout pkg) "";
  ret err.

(** *** Queries *)

Definition ServerInfo : Op (ServerInfoEntity pkg * option error) :=
  do api <- get_session;
  let url := Server api +:+ "/api/" +:+ "2.4" +:+ "/serverinfo" in
  let headers := [] in
  let retval := {| Response_ServerInfo := ServerInfoEntity_zero pkg |} in
  do '(result, err) <-
    makeRequest url GET None (pointer retval) headers
      (connectTimeOut pkg) (readWriteTimeout pkg) "";
  ret (Response_ServerInfo (pointee retval result), err).

Definition QuerySites : Op (list Site * option error) :=
  do api <- get_session;
  let url := Server api +:+ "/api/" +:+ Version api +:+ "/sites/" in
  let headers := [] in
  let retval : QuerySitesResponse := zero in
  do '(result, err) <-
    makeRequest url GET None (pointer retval) headers
      (connectTimeOut pkg) (readWriteTimeout pkg) "";
  ret (Response_Sites (pointee retval result), err).

Definition querySite (url : string) : Op (Site * option error) :=
  let headers := [] in
  let retval : QuerySiteResponse := zero in
  do '(result, err) <-
    makeRequest url GET None (pointer retval) headers
      (connectTimeOut pkg) (readWriteTimeout pkg) "";
  ret (Response_Site (pointee retval result), err).

Definition QuerySite (siteID : string) (includeStorage : bool) : Op (Site * option error) :=
  do api <- get_session;
  let url := Server api +:+ "/api/" +:+ Version api +:+ "/sites/" +:+ siteID in
  let url :=
    if includeStorage then url +:+ "?includeStorage=" +:+ fmt_bool includeStorage
    else url in
  querySite url.

Definition querySiteByKey (key value : string) (includeStorage : bool)
  : Op (Site * option error) :=
  do api <- get_session;
  let url :=
    Server api +:+ "/api/" +:+ Version api +:+ "/sites/" +:+ value
      +:+ "?key=" +:+ key in
  let url :=
    if includeStorage then url +:+ "&includeStorage=" +:+ fmt_bool includeStorage
    else url in
  querySite url.

Definition QuerySiteByName (name : string) (includeStorage : bool) : Op (Site * option error) :=
  querySiteByKey "name" name includeStorage.

Definition QuerySiteByContentURL (contentURL : string) (includeStorage : bool)
  : Op (Site * option error) :=
  querySiteByKey "contentURL" contentURL includeStorage.

Definition QueryUserOnSite (siteID userID : string) : Op (User * option error) :=
  do api <- get_session;
  let url :=
    Server api +:+ "/api/" +:+ Version api +:+ "/sites/" +:+ siteID
      +:+ "/users/" +:+ userID in
  let headers := [] in
  let retval : QueryUserOnSiteResponse := zero in
  do '(result, err) <-
    makeRequest url GET None (pointer retval) headers
      (connectTimeOut pkg) (readWriteTimeout pkg) "";
  ret (Response_User (pointee retval result), err).

Definition QueryProjects (siteID : string) : Op (list Project * option error) :=
  do api <- get_session;
  let url :=
    Server api +:+ "/api/" +:+ Version api +:+ "/sites/" +:+ siteID +:+ "/projects" in
  let headers := [] in
  let retval : QueryProjectsResponse := zero in
  do '(result, err) <-
    makeRequest url GET None (pointer retval) headers
      (connectTimeOut pkg) (readWriteTimeout pkg) "";
  ret (Response_Projects (pointee retval result), err).

Definition QueryViews (siteID : string) : Op (list (View pkg) * option error) :=
  do api <- get_session;
  let url :=
    Server api +:+ "/api/" +:+ Version api +:+ "/sites/" +:+ siteID +:+ "/views" in
  let headers := [] in
  let retval : QueryViewsResponse (View pkg) := {| Response_Views := [] |} in
  do '(result, err) <-
    makeRequest url GET None (pointer retval) headers
      (connectTimeOut pkg) (readWriteTimeout pkg) "";
  ret (Response_Views (pointee retval result), err).

Definition QueryWorkbookViews (siteID workbookID : string) (values : url_Values lib)
  : Op (list (View pkg) * option error) :=
  do api <- get_session;
  let params := Values_Encode lib values in
  let params := if String.eqb params "" then params else "?" +:+ params in
  let url :=
    Server api +:+ "/api/" +:+ Version api +:+ "/sites/" +:+ siteID
      +:+ "/workbooks/" +:+ workbookID +:+ "/views" +:+ params in
  let headers := [] in
  let retval : QueryViewsResponse (View pkg) := {| Response_Views := [] |} in
  do '(result, err) <-
    makeRequest url GET None (pointer retval) headers
      (connectTimeOut pkg) (readWriteTimeout pkg) "";
  ret (Response_Views (pointee retval result), err).

Definition QueryViewData (siteID viewID : string) : Op (csv_Reader lib * option error) :=
  do api <- get_session;
  let url :=
    Server api +:+ "/api/" +:+ Version api +:+ "/sites/" +:+ siteID
      +:+ "/views/" +:+ viewID +:+ "/data" in
  let headers := [] in
  let retVal := csv_Reader_zero lib in
  do '(result, err) <-
    makeRequest url GET None (pointer retVal) headers
      (60 * Second) (60 * Second) "csv";
  ret (pointee retVal result, err).

Definition QueryWorkbooks (siteID : string) (values : url_Values lib)
  : Op (list (Workbook pkg) * option error) :=
  do api <- get_session;
  let params := Values_Encode lib values in
  let params := if String.eqb params "" then params else "?" +:+ params in
  let url :=
    Server api +:+ "/api/" +:+ Version api +:+ "/sites/" +:+ siteID
      +:+ "/workbooks" +:+ params in
  let headers := [] in
  let retval : QueryWorkbooksResponse (Workbook pkg) := {| Response_Workbooks := [] |} in
  do '(result, err) <-
    makeRequest url GET None (pointer retval) headers
      (connectTimeOut pkg) (readWriteTimeout pkg) "";
  ret (Response_Workbooks (pointee retval result), err).

Definition GetProjectByName (siteID name : string) : Op (Project * option error) :=
  do '(projects, err) <- QueryProjects siteID;
  match err with
  | Some err => ret (zero, Some err)
  | None =>
      match find (fun project => String.eqb (Project_Name project) name) projects with
      | Some project => ret (project, None)
      | None => ret (zero, Some (Errorf ("Project Named '" +:+ name +:+ "' Not Found")))
      end
  end.

Definition GetProjectByID (siteID ID : string) : Op (Project * option error) :=
  do '(projects, err) <- QueryProjects siteID;
  match err with
  | Some err => ret (zero, Some err)
  | None =>
      match find (fun project => String.eqb (Project_ID project) ID) projects with
      | Some project => ret (project, None)
      | None => ret (zero, Some (Errorf ("Project with ID '" +:+ ID +:+ "' Not Found")))
      end
  end.

Definition QueryDatasources (siteID : string) : Op (list Datasource * option error) :=
  do api <- get_session;
  let url :=
    Server api +:+ "/api/" +:+ Version api +:+ "/sites/" +:+ siteID +:+ "/datasources" in
  let headers := [] in
  let retval : QueryDatasourcesResponse := zero in
  do '(result, err) <-
    makeRequest url GET None (pointer retval) headers
      (connectTimeOut pkg) (readWriteTimeout pkg) "";
  ret (Response_Datasources (pointee retval result), err).

Definition GetSiteID (siteName : string) : Op (string * option error) :=
  do '(site, err) <- QuerySiteByName siteName false;
  match err with
  | Some err => ret ("", Some err)
  | None => ret (Site_ID site, err)
  end.

(** *** Mutating operations *)

Definition CreateProject (siteID : string) (project : Project)
  : Op (option Project * option error) :=
  do api <- get_session;
  let url :=
    Server api +:+ "/api/" +:+ Version api +:+ "/sites/" +:+ siteID +:+ "/projects" in
  let createProjectRequest := {| CreateProject_Request := project |} in
  match CreateProjectRequest_XML pkg createProjectRequest with
  | inl err => ret (None, Some (XMLError err))
  | inr xmlRep =>
      let headers := [(content_type_header, application_xml_content_type)] in
      let createProjectResponse : CreateProjectResponse := zero in
      do '(result, err) <-
        makeRequest url POST (Some xmlRep) (pointer createProjectResponse) headers
          (connectTimeOut pkg) (readWriteTimeout pkg) "";
      ret (Some (Created_Project (pointee createProjectResponse result)), err)
  end.

(** The named result [retval] is a nil pointer when the function
    starts; [makeRequest] receives a copy of it, and no statement
    assigns to it. *)
Definition publishDatasource (siteID : string) (tdsMetadata : Datasource)
    (datasource datasourceType : string) (overwrite : bool)
  : Op (option Datasource * option error) :=
  do api <- get_session;
  let retval : option Datasource := None in
  let url :=
    Server api +:+ "/api/" +:+ Version api +:+ "/sites/" +:+ siteID
      +:+ "/datasources?datasourceType=" +:+ datasourceType
      +:+ "&overwrite=" +:+ fmt_bool overwrite in
  let payload := "--" +:+ Boundary api +:+ CRLF in
  let payload :=
    payload +:+ "Content-Disposition: name=" +:+ dquote +:+ "request_payload"
      +:+ dquote +:+ CRLF in
  let payload := payload +:+ "Content-Type: text/xml" +:+ CRLF in
  let payload := payload +:+ CRLF in
  let tdsRequest := {| DatasourceCreate_Request := tdsMetadata |} in
  match DatasourceCreateRequest_XML pkg tdsRequest with
  | inl err => ret (retval, Some (XMLError err))
  | inr xmlRepresentation =>
      let payload := payload +:+ xmlRepresentation in
      let payload := payload +:+ (CRLF +:+ "--" +:+ Boundary api +:+ CRLF) in
      let payload :=
        payload +:+ ("Content-Disposition: name=" +:+ dquote +:+ "tableau_datasource"
          +:+ dquote +:+ "; filename=" +:+ dquote +:+ Datasource_Name tdsMetadata
          +:+ ".tds" +:+ dquote +:+ CRLF) in
      let payload := payload +:+ "Content-Type: application/octet-stream" +:+ CRLF in
      let payload := payload +:+ CRLF in
      let payload := payload +:+ datasource in
      let payload := payload +:+ (CRLF +:+ "--" +:+ Boundary api +:+ "--" +:+ CRLF) in
      let headers :=
        [(content_type_header, "multipart/mixed; boundary=" +:+ Boundary api)] in
      do '(_, err) <-
        makeRequest url POST (Some payload)
          (match retval with
           | Some v => pointer v
           | None => nil_pointer
           end)
          headers (connectTimeOut pkg) (readWriteTimeout pkg) "";
      ret (retval, err)
  end.

Definition PublishTDS (siteID : string) (tdsMetadata : Datasource)
    (fullTds : string) (overwrite : bool)
  : Op (option Datasource * option error) :=
  publishDatasource siteID tdsMetadata fullTds "tds" overwrite.

Definition delete (url : string) : Op (option error) :=
  let headers := [] in
  do '(_, err) <-
    makeRequest url DELETE None (@nil_interface Empty_set) headers
      (connectTimeOut pkg) (readWriteTimeout pkg) "";
  ret err.

Definition DeleteDatasource (siteID datasourceID : string) : Op (option error) :=
  do api <- get_session;
  let url :=
    Server api +:+ "/api/" +:+ Version api +:+ "/sites/" +:+ siteID
      +:+ "/datasources/" +:+ datasourceID in
  delete url.

Definition DeleteProject (siteID projectID : string) : Op (option error) :=
  do api <- get_session;
  let url :=
    Server api +:+ "/api/" +:+ Version api +:+ "/sites/" +:+ siteID
      +:+ "/projects/" +:+ projectID in
  delete url.

Definition DeleteSite (siteID : string) : Op (option error) :=
  do api <- get_session;
  let url := Server api +:+ "/api/" +:+ Version api +:+ "/sites/" +:+ siteID in
  delete url.

Definition deleteSiteByKey (key value : string) : Op (option error) :=
  do api <- get_session;
  let url :=
    Server api +:+ "/api/" +:+ Version api +:+ "/sites/" +:+ value
      +:+ "?key=" +:+ key in
  delete url.

Definition DeleteSiteByName (name : string) : Op (option error) :=
  deleteSiteByKey "name" name.

Definition DeleteSiteByContentURL (contentURL : string) : Op (option error) :=
  deleteSiteByKey "contentUrl" contentURL.

End Client.

Arguments build_request : clear implicits.
Arguments Header_Add : clear implicits.
Arguments Header_Values : clear implicits.
Arguments add_headers : clear implicits.

(** ** Observations on runs *)

Section Observations.

Context {lib : GoLib} {pkg : Package lib}.

(** On the remote side of [st], [req] sent through [client] gets a
    response with status [code] whose body reads, without error, as
    [body]. *)
Definition answered (st : State lib) (client : Client) (req : Request)
    (code : Z) (body : string) : Prop :=
  exists resp e1 e2,
    RoundTrip lib client req (env st) = (inr resp, e1) /\
    StatusCode resp = code /\
    ReadAll lib (Resp_Body resp) e1 = ((body, None), e2).

(** The requests a run of [op] from [st] puts on the wire. *)
Definition sent {A : Type} (op : Op lib A) (st : State lib) : list (Client * Request) :=
  drop (length (wire st)) (wire (snd (op st))).

(** [op] sends at most one request, and that one with [method] to the
    URL that [url] gives for the session. *)
Definition targets {A : Type} (op : Op lib A) (method : string) (url : API -> string) : Prop :=
  forall st,
    sent op st = [] \/
    exists client req,
      sent op st = [(client, req)] /\
      Method req = TrimSpace lib method /\
      URL req = TrimSpace lib (url (session st)).

(** [op] sends exactly one request, with [method] to the URL that [url]
    gives for the session, unless [http.NewRequest] rejects method or
    URL, and then it sends nothing. *)
Definition dispatches {A : Type} (op : Op lib A) (method : string) (url : API -> string) : Prop :=
  forall st,
    match NewRequest_check lib (TrimSpace lib method) (TrimSpace lib (url (session st))) with
    | None =>
        exists client req,
          sent op st = [(client, req)] /\
          Method req = TrimSpace lib method /\
          URL req = TrimSpace lib (url (session st))
    | Some _ => sent op st = []
    end.

(** A URL under the API version of the session. *)
Definition versioned (path : string) (api : API) : string :=
  Server api +:+ "/api/" +:+ Version api +:+ path.

(** The session with another API version. *)
Definition set_Version (v : string) (st : State lib) : State lib :=
  {| session :=
       {| Server := Server (session st); Version := v;
          Boundary := Boundary (session st); AuthToken := AuthToken (session st);
          OmitDefaultSiteName := OmitDefaultSiteName (session st);
          DefaultSiteName := DefaultSiteName (session st) |};
     Debug := Debug st; stdout := stdout st; wire := wire st; env := env st |}.

(** The values that a list of header entries puts under the canonical
    form of [key], in order. *)
Definition under (key : string) (entries : list (string * string)) : list string :=
  map snd
    (filter
       (fun kv => CanonicalMIMEHeaderKey lib (fst kv) = CanonicalMIMEHeaderKey lib key)
       entries).

(** The header entries of a request that do not come from the session:
    Content-Length, when there is a payload, and the caller's headers. *)
Definition plain_entries (payload : option string) (headers : list (string * string))
  : list (string * string) :=
  (if (0 <? len payload)%nat
   then [(content_length_header, Itoa (len payload))] else [])
  ++ headers.

End Observations.

Arguments under : clear implicits.

(** Shapes of byte strings. *)
Definition begins_with (prefix s : string) : Prop :=
  exists rest, s = prefix +:+ rest.

Definition ends_with (suffix s : string) : Prop :=
  exists front, s = front +:+ suffix.

Definition contains (sub s : string) : Prop :=
  exists front rest, s = front +:+ sub +:+ rest.

(** A part of a multipart body delimited by [boundary]: after a delimiter
    line, the given Content-Disposition line, a Content-Type line, an
    empty line, the content, and the line break before the next
    delimiter. *)
Definition has_part (boundary disposition content s : string) : Prop :=
  exists front ctype rest,
    s = front +:+ "--" +:+ boundary +:+ CRLF
          +:+ "Content-Disposition: " +:+ disposition +:+ CRLF
          +:+ "Content-Type: " +:+ ctype +:+ CRLF
          +:+ CRLF
          +:+ content
          +:+ CRLF +:+ "--" +:+ boundary +:+ rest.

(** The last byte of a string. *)
Fixpoint last_byte (s : string) : option ascii :=
  match s with
  | EmptyString => None
  | String c EmptyString => Some c
  | String _ rest => last_byte rest
  end.

(** ** A concrete world for running the model *)

Module Fixture.

(** A remote side that answers every request from a script: the list of
    answers still to give. *)
Definition lib : GoLib := {|
  net_error := string;
  xml_error := string;
  TrimSpace := fun s => s;
  CanonicalMIMEHeaderKey := fun s => s;
  NewRequest_check := fun _ _ => None;
  Env := list (Z * string);
  Stream := string;
  RoundTrip := fun _ _ script =>
    match script with
    | (code, body) :: rest => (inr {| StatusCode := code; Resp_Body := body |}, rest)
    | [] => (inl "connection refused", [])
    end;
  ReadAll := fun body script => ((body, None), script);
  Close := fun _ script => script;
  xml_Skip := fun body => if String.eqb body "" then Some "EOF" else None;
  csv_Reader := string;
  csv_Reader_zero := "";
  csv_NewReader := fun body => body;
  url_Values := string;
  Values_Encode := fun v => v
|}.

(** A decoder that takes a body of the form [<t>...] for well-formed
    and stores it with [store]. *)
Definition decoder {T : Type} (store : string -> T -> T) : Decodable lib T :=
  Build_Decodable lib T
    (fun body v =>
       match body with
       | String "<" _ => (store body v, None)
       | _ => (v, Some "syntax error")
       end)
    None.

Definition with_token (body : string) (r : AuthResponse) : AuthResponse :=
  {| Auth_Credentials :=
       {| Cred_Name := Cred_Name (Auth_Credentials r);
          Password := Password (Auth_Credentials r);
          Token := body;
          Impersonate := Impersonate (Auth_Credentials r);
          Cred_Site := Cred_Site (Auth_Credentials r) |} |}.

Definition finance : list Project :=
  [ {| Project_ID := "p0"; Project_Name := "Sales" |};
    {| Project_ID := "p1"; Project_Name := "Finance" |};
    {| Project_ID := "p2"; Project_Name := "Finance" |} ].

#[export] Instance pkg : Package lib := {|
  TError := string;
  TError_zero := "";
  ServerInfoEntity := string;
  ServerInfoEntity_zero := "";
  View := string;
  Workbook := string;
  connectTimeOut := 5 * Second;
  readWriteTimeout := 10 * Second;
  SigninRequest_XML := fun r =>
    inr ("<tsRequest site='"
         +:+ match Cred_Site (Signin_Request r) with
             | Some s => ContentUrl s
             | None => "?"
             end +:+ "'/>");
  CreateProjectRequest_XML := fun r =>
    inr ("<tsRequest project='" +:+ Project_Name (CreateProject_Request r) +:+ "'/>");
  DatasourceCreateRequest_XML := fun r =>
    inr ("<tsRequest datasource='" +:+ Datasource_Name (DatasourceCreate_Request r) +:+ "'/>");
  decode_ErrorResponse := decoder (fun body _ => {| Error := body |});
  decode_AuthResponse := decoder with_token;
  decode_ServerInfoResponse := decoder (fun body _ => {| Response_ServerInfo := body |});
  decode_QuerySitesResponse := decoder (fun _ r => r);
  decode_QuerySiteResponse := decoder (fun _ r => r);
  decode_QueryUserOnSiteResponse := decoder (fun _ r => r);
  decode_QueryProjectsResponse := decoder (fun _ _ => {| Response_Projects := finance |});
  decode_QueryViewsResponse := decoder (fun _ r => r);
  decode_QueryWorkbooksResponse := decoder (fun _ r => r);
  decode_QueryDatasourcesResponse := decoder (fun _ r => r);
  decode_CreateProjectResponse := decoder (fun _ r => r);
  decode_Datasource := decoder (fun body _ => {| Datasource_Name := body |});
  decode_csv_Reader :=
    Build_Decodable lib string (fun _ v => (v, Some "not XML")) (Some (fun r => r))
|}.

Definition api0 : API := {|
  Server := "https://tableau.example";
  Version := "2.0";
  Boundary := "B1";
  AuthToken := "";
  OmitDefaultSiteName := true;
  DefaultSiteName := "Default"
|}.

Definition start (a : API) (script : list (Z * string)) : State lib :=
  Build_State lib a false [] [] script.

Definition client0 : Client :=
  NewTimeoutClient (connectTimeOut pkg) (readWriteTimeout pkg) false.

(** A query, as the session without a token sends it. *)
Definition query_url : string := "https://tableau.example/api/2.0/sites/s1/projects".

Definition query_request : Request :=
  {| Method := GET; URL := query_url; Body := None; Header := ∅ |}.

(** The session after a sign-in that the remote side answers with 200
    and a body that decodes to the given token. *)
Definition signed_in : State lib :=
  snd (Signin (pkg := pkg) "alice" "secret" "Default" "" (start api0 [(200, "<t0ken>")])).

(** The same query, as the signed-in session sends it. *)
Definition authenticated_request : Request :=
  Header_Add lib auth_header "<t0ken>" query_request.

(** A publication of the datasource Sales with content <rows/>, and the
    request it sends. *)
Definition sales : Datasource := {| Datasource_Name := "Sales" |}.

Definition publish_script : list (Z * string) :=
  [(201, "<tsResponse><datasource name='Sales'/></tsResponse>")].

Definition publish_request : Request :=
  match sent (publishDatasource (pkg := pkg) "s1" sales "<rows/>" "tds" true)
          (start api0 publish_script) with
  | (_, req) :: _ => req
  | [] => query_request
  end.

End Fixture.

(** ** Conduct of operations *)

Section Conduct.

Context {lib : GoLib}.

(** [op] returns on every run: it never panics. *)
Definition always_returns {A : Type} (op : Op lib A) : Prop :=
  forall st, exists a, fst (op st) = Returns a.

(** [op] leaves the session and the package variable [Debug] as they
    are. *)
Definition keeps_session {A : Type} (op : Op lib A) : Prop :=
  forall st,
    session (snd (op st)) = session st /\ Debug (snd (op st)) = Debug st.

(** The lines [makeRequest] prints before it sends a request, when
    [Debug] is set: method and URL, the payload unless it is nil, and the
    auth header with the token of the session. *)
Definition trace_before (token requestURL method : string) (payload : option string)
  : list string :=
  [method +:+ ":" +:+ requestURL +:+ LF]
  ++ match payload with
     | Some p => [p +:+ LF]
     | None => []
     end
  ++ (if nonempty token then [auth_header +:+ ":" +:+ token +:+ LF] else []).

End Conduct.

(** The multipart body of a publication, written out: the part with the
    serialized metadata and the part with the datasource, each after a
    delimiter line of [boundary], and the closing delimiter line. *)
Definition multipart (boundary xml name datasource : string) : string :=
  "--" +:+ boundary +:+ CRLF
  +:+ "Content-Disposition: name=" +:+ dquote +:+ "request_payload" +:+ dquote +:+ CRLF
  +:+ "Content-Type: text/xml" +:+ CRLF
  +:+ CRLF
  +:+ xml +:+ CRLF
  +:+ "--" +:+ boundary +:+ CRLF
  +:+ "Content-Disposition: name=" +:+ dquote +:+ "tableau_datasource" +:+ dquote
  +:+ "; filename=" +:+ dquote +:+ name +:+ ".tds" +:+ dquote +:+ CRLF
  +:+ "Content-Type: application/octet-stream" +:+ CRLF
  +:+ CRLF
  +:+ datasource +:+ CRLF
  +:+ "--" +:+ boundary +:+ "--" +:+ CRLF.

(** ** A world with failures *)

Module Rough.

(** What the remote side does with a request: it refuses the connection,
    or replies with a status and a body that may break off while it is
    read. *)
Inductive answer : Type :=
| refused
| replied (code : Z) (body : string) (readable : bool).

(** The remote side is the list of answers still to give, with the number
    of response bodies closed so far.  [http.NewRequest] rejects a URL
    that starts with a colon. *)
Definition lib : GoLib := {|
  net_error := string;
  xml_error := string;
  TrimSpace := fun s => s;
  CanonicalMIMEHeaderKey := fun s => s;
  NewRequest_check := fun _ url =>
    match url with
    | String ":" _ => Some "missing protocol scheme"
    | _ => None
    end;
  Env := list answer * nat;
  Stream := string * bool;
  RoundTrip := fun _ _ e =>
    match fst e with
    | replied code body readable :: rest =>
        (inr {| StatusCode := code; Resp_Body := (body, readable) |}, (rest, snd e))
    | refused :: rest => (inl "connection refused", (rest, snd e))
    | [] => (inl "connection refused", ([], snd e))
    end;
  ReadAll := fun stream e =>
    ((fst stream, if snd stream then None else Some "unexpected EOF"), e);
  Close := fun _ e => (fst e, S (snd e));
  xml_Skip := fun body => if String.eqb body "" then Some "EOF" else None;
  csv_Reader := string;
  csv_Reader_zero := "";
  csv_NewReader := fun body => body;
  url_Values := string;
  Values_Encode := fun v => v
|}.

Definition decoder {T : Type} (store : string -> T -> T) : Decodable lib T :=
  Build_Decodable lib T
    (fun body v =>
       match body with
       | String "<" _ => (store body v, None)
       | _ => (v, Some "syntax error")
       end)
    None.

Definition created : Project := {| Project_ID := "p7"; Project_Name := "Audit" |}.

Definition site7 : Site := {| Site_ID := "s7"; ContentUrl := "marketing" |}.

(** A list of projects in which an ID occurs twice, after a project with
    another ID. *)
Definition portfolio : list Project :=
  [ {| Project_ID := "p6"; Project_Name := "Ops" |};
    {| Project_ID := "p7"; Project_Name := "Audit" |};
    {| Project_ID := "p7"; Project_Name := "Archive" |} ].

(** Serializers that fail on a request without a name. *)
Definition signin_xml (r : SigninRequest) : xml_error lib + string :=
  match Cred_Name (Signin_Request r) with
  | "" => inl "no name"
  | name =>
      inr ("<tsRequest name='" +:+ name +:+ "' user='"
           +:+ match Impersonate (Signin_Request r) with
               | Some u => User_ID u
               | None => ""
               end +:+ "'/>")
  end.

Definition project_xml (r : CreateProjectRequest) : xml_error lib + string :=
  match Project_Name (CreateProject_Request r) with
  | "" => inl "no name"
  | name => inr ("<tsRequest project='" +:+ name +:+ "'/>")
  end.

Definition datasource_xml (r : DatasourceCreateRequest) : xml_error lib + string :=
  inr ("<tsRequest datasource='" +:+ Datasource_Name (DatasourceCreate_Request r) +:+ "'/>").

#[export] Instance pkg : Package lib := {|
  TError := string;
  TError_zero := "";
  ServerInfoEntity := string;
  ServerInfoEntity_zero := "";
  View := string;
  Workbook := string;
  connectTimeOut := 5 * Second;
  readWriteTimeout := 10 * Second;
  SigninRequest_XML := signin_xml;
  CreateProjectRequest_XML := project_xml;
  DatasourceCreateRequest_XML := datasource_xml;
  decode_ErrorResponse := decoder (fun body _ => {| Error := body |});
  decode_AuthResponse :=
    decoder (fun body _ =>
               {| Auth_Credentials :=
                    {| Cred_Name := ""; Password := ""; Token := body;
                       Impersonate := None; Cred_Site := None |} |});
  decode_ServerInfoResponse := decoder (fun body _ => {| Response_ServerInfo := body |});
  decode_QuerySitesResponse := decoder (fun _ _ => {| Response_Sites := [site7] |});
  decode_QuerySiteResponse := decoder (fun _ _ => {| Response_Site := site7 |});
  decode_QueryUserOnSiteResponse := decoder (fun _ r => r);
  decode_QueryProjectsResponse :=
    decoder (fun body _ =>
               {| Response_Projects :=
                    if String.eqb body "<projects/>" then [created] else portfolio |});
  decode_QueryViewsResponse := decoder (fun body _ => {| Response_Views := [body] |});
  decode_QueryWorkbooksResponse := decoder (fun body _ => {| Response_Workbooks := [body] |});
  decode_QueryDatasourcesResponse := decoder (fun _ r => r);
  decode_CreateProjectResponse := decoder (fun _ _ => {| Created_Project := created |});
  decode_Datasource := decoder (fun body _ => {| Datasource_Name := body |});
  decode_csv_Reader :=
    Build_Decodable lib string (fun _ v => (v, Some "not XML")) (Some (fun r => r))
|}.

Definition api1 : API := {|
  Server := "https://bi.example";
  Version := "2.8";
  Boundary := "XyZ";
  AuthToken := "tok-1";
  OmitDefaultSiteName := false;
  DefaultSiteName := ""
|}.

Definition start (debug : bool) (a : API) (script : list answer) : State lib :=
  Build_State lib a debug [] [] (script, 0%nat).

Definition client1 : Client :=
  NewTimeoutClient (connectTimeOut pkg) (readWriteTimeout pkg) false.

(** A request without payload or caller headers, as a session sends it
    that holds [token]. *)
Definition bare (method url token : string) : Request :=
  let req := {| Method := method; URL := url; Body := None; Header := ∅ |} in
  if nonempty token then Header_Add lib auth_header token req else req.

End Rough.

(** ** Properties *)

Local Arguments nonempty : simpl never.
Local Arguments build_request : simpl never.
Local Arguments interpret_response : simpl never.
Local Arguments makeRequest : simpl never.
Local Arguments String.append !s1 s2 : simpl nomatch.

Ltac unfold_op :=
  unfold bind, ret, lift, when, defer, get_session, get_Debug,
    put_AuthToken, Printf, client_Do, ioutil_ReadAll, Body_Close in *.

Section Dispatcher.

Context {lib : GoLib} {pkg : Package lib}.

Abbreviation Op := (Op lib).
Abbreviation error := (error pkg).

(** A call of [makeRequest] leaves the session and [Debug] alone and puts
    on the wire the request it built, if it could build one. *)
Lemma makeRequest_frame {T : Type} `{!Decodable lib T}
    (requestURL method : string) (payload : option string) (result : Target T)
    (headers : list (string * string)) (cTimeout rwTimeout : Duration)
    (format : string) (st : State lib) :
  let st' := snd (makeRequest requestURL method payload result headers
                    cTimeout rwTimeout format st) in
  session st' = session st /\
  Debug st' = Debug st /\
  wire st' =
    wire st ++
      match build_request lib (AuthToken (session st))
              requestURL method payload headers with
      | inl _ => []
      | inr req => [(NewTimeoutClient cTimeout rwTimeout false, req)]
      end.
Proof.
  unfold makeRequest. unfold_op.
  destruct (nonempty (AuthToken (session st))) eqn:Htoken;
    destruct (build_request _ _ _ _ _ _) as [httpErr|req] eqn:Hbuild;
    destruct (Debug st) eqn:Hdebug; destruct payload as [p|]; cbn;
    rewrite ?Hbuild, ?Htoken, ?app_nil_r; cbn;
    try (split; [|split]; (reflexivity || assumption)).
  all: destruct (RoundTrip lib _ req (env st)) as [[httpErr|resp] e1]; cbn;
    try (split; [|split]; (reflexivity || assumption)).
  all: destruct (ReadAll lib (Resp_Body resp) e1) as [[body [readErr|]] e2]; cbn;
    (split; [|split]; (reflexivity || assumption)).
Qed.

(** When the request is built and answered, and the body is read, the
    call returns what [interpret_response] makes of status and body. *)
Lemma makeRequest_answered {T : Type} `{!Decodable lib T}
    (requestURL method : string) (payload : option string) (result : Target T)
    (headers : list (string * string)) (cTimeout rwTimeout : Duration)
    (format : string) (st : State lib) (req : Request) (code : Z) (body : string) :
  build_request lib (AuthToken (session st)) requestURL method payload headers
    = inr req ->
  answered st (NewTimeoutClient cTimeout rwTimeout false) req code body ->
  fst (makeRequest requestURL method payload result headers
         cTimeout rwTimeout format st)
  = interpret_response code body result format.
Proof.
  intros Hbuild (resp & e1 & e2 & Htrip & Hcode & Hread).
  unfold makeRequest. unfold_op. subst code.
  destruct (nonempty (AuthToken (session st))) eqn:Htoken;
    destruct (Debug st) eqn:Hdebug; destruct payload as [p|]; cbn;
    rewrite ?Hbuild, ?Htoken; cbn; rewrite Htrip; cbn; rewrite Hread; cbn;
    reflexivity.
Qed.

(** C1. Every response with status 404 makes [makeRequest] return the
    sentinel [ErrDoesNotExist], whatever the body is (empty and malformed
    bodies included), whatever the target and the format are, and
    whatever the decoders of the error schema and of the target would do
    with the body: neither is consulted, and the target comes back as it
    went in. *)
Theorem makeRequest_404_sentinel {T : Type} `{!Decodable lib T}
    (requestURL method : string) (payload : option string) (result : Target T)
    (headers : list (string * string)) (cTimeout rwTimeout : Duration)
    (format : string) (st : State lib) (req : Request) (body : string) :
  build_request lib (AuthToken (session st)) requestURL method payload headers
    = inr req ->
  answered st (NewTimeoutClient cTimeout rwTimeout false) req 404 body ->
  fst (makeRequest requestURL method payload result headers
         cTimeout rwTimeout format st)
  = Returns (result, Some ErrDoesNotExist).
Proof.
  intros Hbuild Hanswer.
  rewrite (makeRequest_answered _ _ _ _ _ _ _ _ _ _ _ _ Hbuild Hanswer).
  reflexivity.
Qed.

(** C2. Every response with a status of 300 or more other than 404 makes
    [makeRequest] parse the body by the schema of the structured error
    and return the decoded error, or the error of the parse when the
    parse fails.  What is returned is computed from the body alone: a
    second response with the same body and any other such status gives
    the same error, so a parse error tells nothing about the status. *)
Theorem makeRequest_error_status {T : Type} `{!Decodable lib T}
    (requestURL method : string) (payload : option string) (result : Target T)
    (headers : list (string * string)) (cTimeout rwTimeout : Duration)
    (format : string) (st : State lib) (req : Request) (code : Z) (body : string) :
  build_request lib (AuthToken (session st)) requestURL method payload headers
    = inr req ->
  answered st (NewTimeoutClient cTimeout rwTimeout false) req code body ->
  300 <= code ->
  code <> 404 ->
  fst (makeRequest requestURL method payload result headers
         cTimeout rwTimeout format st)
  = Returns
      (result,
       Some match xml_Unmarshal body {| Error := TError_zero pkg |} with
            | (tErrorResponse, None) => ServerError (Error tErrorResponse)
            | (_, Some err) => XMLError err
            end)
  /\ forall (st2 : State lib) (req2 : Request) (code2 : Z),
       build_request lib (AuthToken (session st2)) requestURL method payload headers
         = inr req2 ->
       answered st2 (NewTimeoutClient cTimeout rwTimeout false) req2 code2 body ->
       300 <= code2 ->
       code2 <> 404 ->
       fst (makeRequest requestURL method payload result headers
              cTimeout rwTimeout format st2)
       = fst (makeRequest requestURL method payload result headers
                cTimeout rwTimeout format st).
Proof.
  assert (Hshape : forall c, 300 <= c -> c <> 404 ->
            interpret_response c body result format
            = Returns
                (result,
                 Some match xml_Unmarshal body {| Error := TError_zero pkg |} with
                      | (tErrorResponse, None) => ServerError (Error tErrorResponse)
                      | (_, Some err) => XMLError err
                      end)).
  { intros c Hge Hne. unfold interpret_response.
    destruct (Z.eqb_spec c 404) as [|_]; [contradiction|].
    destruct (Z.leb_spec 300 c) as [_|]; [|lia].
    destruct (xml_Unmarshal body _) as [tErrorResponse [err|]]; reflexivity. }
  intros Hbuild Hanswer Hge Hne.
  rewrite (makeRequest_answered _ _ _ _ _ _ _ _ _ _ _ _ Hbuild Hanswer).
  split; [now apply Hshape|].
  intros st2 req2 code2 Hbuild2 Hanswer2 Hge2 Hne2.
  rewrite (makeRequest_answered _ _ _ _ _ _ _ _ _ _ _ _ Hbuild2 Hanswer2).
  now rewrite !Hshape.
Qed.

(** The ways a call of [makeRequest] can end: with an error of the
    transport (the request could not be created or sent, or the body
    could not be read), or with what [interpret_response] makes of an
    answer. *)
Lemma makeRequest_inv {T : Type} `{!Decodable lib T}
    (requestURL method : string) (payload : option string) (result : Target T)
    (headers : list (string * string)) (cTimeout rwTimeout : Duration)
    (format : string) (st : State lib) :
  (exists httpErr,
      fst (makeRequest requestURL method payload result headers
             cTimeout rwTimeout format st)
      = Returns (result, Some (NetError httpErr)))
  \/
  (exists req code body,
      build_request lib (AuthToken (session st)) requestURL method payload headers
        = inr req /\
      answered st (NewTimeoutClient cTimeout rwTimeout false) req code body /\
      fst (makeRequest requestURL method payload result headers
             cTimeout rwTimeout format st)
      = interpret_response code body result format).
Proof.
  destruct (build_request lib (AuthToken (session st)) requestURL method payload headers)
    as [httpErr|req] eqn:Hbuild.
  { left. exists httpErr. unfold makeRequest. unfold_op.
    destruct (Debug st); destruct payload; cbn; rewrite Hbuild; reflexivity. }
  destruct (RoundTrip lib (NewTimeoutClient cTimeout rwTimeout false) req (env st))
    as [[httpErr|resp] e1] eqn:Htrip.
  { left. exists httpErr. unfold makeRequest. unfold_op.
    destruct (nonempty (AuthToken (session st))) eqn:Htoken;
      destruct (Debug st); destruct payload; cbn;
      rewrite ?Hbuild, ?Htoken; cbn; rewrite Htrip; reflexivity. }
  destruct (ReadAll lib (Resp_Body resp) e1) as [[body [readErr|]] e2] eqn:Hread.
  { left. exists readErr. unfold makeRequest. unfold_op.
    destruct (nonempty (AuthToken (session st))) eqn:Htoken;
      destruct (Debug st); destruct payload; cbn;
      rewrite ?Hbuild, ?Htoken; cbn; rewrite Htrip; cbn; rewrite Hread;
      reflexivity. }
  right. exists req, (StatusCode resp), body.
  assert (Hanswer : answered st (NewTimeoutClient cTimeout rwTimeout false) req
                      (StatusCode resp) body).
  { exists resp, e1, e2. auto. }
  split; [reflexivity|]. split; [exact Hanswer|].
  apply makeRequest_answered with (req := req); assumption.
Qed.

End Dispatcher.

Section Session.

Context {lib : GoLib} {pkg : Package lib}.

(** What a run of [Signin] that has ended tells: [Signin] always
    returns; a run that returns no error was answered with a status below
    300 whose body decoded without error into [retval], and it leaves the
    session with [retval.Credentials.Token] as its token; a run that
    returns an error leaves the session as it was. *)
Lemma Signin_outcome
    (username password contentURL userIDToImpersonate : string) (st : State lib) :
  exists err st',
    Signin (pkg := pkg) username password contentURL userIDToImpersonate st
    = (Returns err, st') /\
    match err with
    | None =>
        exists payload req code body retval,
          build_request lib (AuthToken (session st))
            (versioned "/auth/signin" (session st)) POST (Some payload)
            [(content_type_header, application_xml_content_type)] = inr req /\
          answered st
            (NewTimeoutClient (connectTimeOut pkg) (readWriteTimeout pkg) false)
            req code body /\
          code < 300 /\
          xml_Unmarshal body (zero : AuthResponse) = (retval, None) /\
          session st' = set_AuthToken (Token (Auth_Credentials retval)) (session st)
    | Some _ => session st' = session st
    end.
Proof.
  unfold Signin, versioned. unfold bind at 1. unfold get_session at 1.
  cbv beta iota zeta.
  destruct (SigninRequest_XML pkg _) as [xerr|payload] eqn:Hxml.
  { exists (Some (XMLError xerr)), st. split; reflexivity. }
  match goal with
  | |- context [makeRequest ?u ?m ?p ?r ?h ?c ?w ?f] =>
      pose proof (makeRequest_frame (pkg := pkg) u m p r h c w f st) as (Hsession & _ & _);
      destruct (makeRequest_inv (pkg := pkg) u m p r h c w f st)
        as [[httpErr Hend]|(req & code & body & Hbuild & Hanswer & Hend)];
      unfold bind;
      destruct (makeRequest (pkg := pkg) u m p r h c w f st) as [[[res err]|] st1] eqn:Hrun
  end; cbn in Hsession, Hend.
  - injection Hend as -> ->. eexists _, _. split; [reflexivity|]. exact Hsession.
  - discriminate Hend.
  - unfold interpret_response, decode_result in Hend. cbn in Hend.
    destruct (Z.eqb_spec code 404) as [|Hne].
    { injection Hend as -> ->. eexists _, _. split; [reflexivity|]. exact Hsession. }
    destruct (Z.leb_spec 300 code) as [|Hlt].
    { destruct (xml_Unmarshal body _) as [tErrorResponse [xerr|]];
        injection Hend as -> ->; eexists _, _; (split; [reflexivity|]); exact Hsession. }
    destruct (xml_Unmarshal body (zero : AuthResponse)) as [retval [xerr|]] eqn:Hdecode;
      injection Hend as -> ->.
    + eexists _, _. split; [reflexivity|]. exact Hsession.
    + eexists _, _. split; [reflexivity|].
      exists payload, req, code, body, retval.
      repeat split; try assumption.
      cbn. now rewrite Hsession.
  - unfold interpret_response, decode_result in Hend. cbn in Hend.
    destruct (code =? 404); [discriminate|].
    destruct (300 <=? code).
    { destruct (xml_Unmarshal body _) as [tErrorResponse [xerr|]]; discriminate. }
    destruct (xml_Unmarshal body (zero : AuthResponse)) as [retval [xerr|]];
      discriminate.
Qed.

(** C9. [Signout] never modifies [AuthToken]: whatever the remote side
    does, [Signout] returns (with or without an error) and the session
    holds the token it held before, as it holds every other field. *)
Theorem Signout_keeps_AuthToken (st : State lib) :
  exists err st',
    Signout (pkg := pkg) st = (Returns err, st') /\
    AuthToken (session st') = AuthToken (session st).
Proof.
  unfold Signout. unfold bind at 1. unfold get_session at 1.
  cbv beta iota zeta.
  match goal with
  | |- context [makeRequest ?u ?m ?p ?r ?h ?c ?w ?f] =>
      pose proof (makeRequest_frame (pkg := pkg) u m p r h c w f st) as (Hsession & _ & _);
      destruct (makeRequest_inv (pkg := pkg) u m p r h c w f st)
        as [[httpErr Hend]|(req & code & body & Hbuild & Hanswer & Hend)];
      unfold bind;
      destruct (makeRequest (pkg := pkg) u m p r h c w f st) as [[[res err]|] st1] eqn:Hrun
  end; cbn in Hsession, Hend.
  - eexists _, _. split; [reflexivity|]. now rewrite Hsession.
  - discriminate Hend.
  - eexists _, _. split; [reflexivity|]. now rewrite Hsession.
  - unfold interpret_response, decode_result in Hend.
    destruct (code =? 404); [discriminate|].
    destruct (300 <=? code); [|discriminate].
    destruct (xml_Unmarshal body _) as [tErrorResponse [xerr|]]; discriminate.
Qed.

End Session.

Section Headers.

Context {lib : GoLib} {pkg : Package lib}.

Lemma Header_Values_Add (key key' value : string) (req : Request) :
  Header_Values lib key (Header_Add lib key' value req)
  = Header_Values lib key req ++ under lib key [(key', value)].
Proof.
  unfold Header_Values, Header_Add, Header.Values, Header.Add, under, set_Header.
  cbn [Header filter map fst snd].
  rewrite filter_cons, filter_nil. cbn [fst].
  destruct (decide (CanonicalMIMEHeaderKey lib key' = CanonicalMIMEHeaderKey lib key))
    as [Heq|Hne].
  - unfold Header.Values. rewrite Heq, lookup_insert_eq. reflexivity.
  - rewrite lookup_insert_ne by exact Hne. cbn. now rewrite app_nil_r.
Qed.

Lemma under_app (key : string) (l1 l2 : list (string * string)) :
  under lib key (l1 ++ l2) = under lib key l1 ++ under lib key l2.
Proof. unfold under. now rewrite filter_app, map_app. Qed.

Lemma Header_Values_add_headers (key : string) (headers : list (string * string))
    (req : Request) :
  Header_Values lib key (add_headers lib headers req)
  = Header_Values lib key req ++ under lib key headers.
Proof.
  unfold add_headers. revert req.
  induction headers as [|[k v] headers IH]; intros req; cbn [fold_left fst snd].
  - unfold under. cbn. now rewrite app_nil_r.
  - rewrite IH, Header_Values_Add, <- app_assoc, <- under_app. reflexivity.
Qed.

(** The values a built request carries under a header name: those of
    Content-Length and of the caller's headers, then the token when the
    session has one and the name is that of the auth header. *)
Lemma build_request_Header_Values (token requestURL method : string)
    (payload : option string) (headers : list (string * string))
    (req : Request) (key : string) :
  build_request lib token requestURL method payload headers = inr req ->
  Header_Values lib key req
  = under lib key (plain_entries payload headers)
    ++ (if nonempty token then under lib key [(auth_header, token)] else []).
Proof.
  unfold build_request, plain_entries, http_NewRequest.
  destruct (NewRequest_check lib _ _) as [httpErr|].
  { destruct (0 <? len payload)%nat; discriminate. }
  intros Hbuild.
  assert (Hempty : forall m u b,
            Header_Values lib key
              {| Method := m; URL := u; Body := b; Header := ∅ |} = []).
  { intros. unfold Header_Values, Header.Values. cbn. now rewrite lookup_empty. }
  destruct (0 <? len payload)%nat; destruct (nonempty token);
    injection Hbuild as <-;
    rewrite ?Header_Values_Add, ?Header_Values_add_headers, ?Header_Values_Add,
      ?Hempty, ?under_app, ?app_nil_r; cbn [app]; reflexivity.
Qed.

(** The requests a call of [makeRequest] sends: the one it built, if it
    could build one. *)
Lemma makeRequest_sent {T : Type} `{!Decodable lib T}
    (requestURL method : string) (payload : option string) (result : Target T)
    (headers : list (string * string)) (cTimeout rwTimeout : Duration)
    (format : string) (st : State lib) :
  sent (makeRequest (pkg := pkg) requestURL method payload result headers
          cTimeout rwTimeout format) st
  = match build_request lib (AuthToken (session st))
            requestURL method payload headers with
    | inl _ => []
    | inr req => [(NewTimeoutClient cTimeout rwTimeout false, req)]
    end.
Proof.
  unfold sent.
  destruct (makeRequest_frame (pkg := pkg) requestURL method payload result headers
              cTimeout rwTimeout format st) as (_ & _ & ->).
  apply drop_app_length.
Qed.

(** C4. After a [Signin] that succeeded and stored a non-empty token,
    every request that [makeRequest] sends for that session carries the
    token under the auth header, after whatever the Content-Length
    header and the caller's headers put under the same canonical name
    (nothing, for the headers client.go passes).  When the token of the
    session is empty, the request carries under that name only what
    those entries put there: [makeRequest] attaches no auth header. *)
Theorem auth_header_follows_token {T : Type} `{!Decodable lib T}
    (username password contentURL userIDToImpersonate : string)
    (st st' later : State lib)
    (requestURL method : string) (payload : option string) (result : Target T)
    (headers : list (string * string)) (cTimeout rwTimeout : Duration)
    (format : string) (client : Client) (req : Request) :
  In (client, req)
    (sent (makeRequest (pkg := pkg) requestURL method payload result headers
             cTimeout rwTimeout format) later) ->
  (Signin (pkg := pkg) username password contentURL userIDToImpersonate st
     = (Returns None, st') ->
   AuthToken (session st') <> "" ->
   session later = session st' ->
   Header_Values lib auth_header req
   = under lib auth_header (plain_entries payload headers)
     ++ [AuthToken (session st')])
  /\
  (AuthToken (session later) = "" ->
   Header_Values lib auth_header req
   = under lib auth_header (plain_entries payload headers)).
Proof.
  rewrite makeRequest_sent.
  destruct (build_request lib _ _ _ _ _) as [httpErr|built] eqn:Hbuild;
    [intros []|].
  intros [Hin|[]]. injection Hin as _ <-.
  rewrite (build_request_Header_Values _ _ _ _ _ _ auth_header Hbuild).
  split.
  - intros _ Htoken ->.
    destruct (AuthToken (session st')) as [|c token]; [contradiction|].
    unfold nonempty. cbn [String.length Nat.ltb Nat.leb].
    unfold under. rewrite filter_cons, filter_nil. cbn [fst].
    destruct (decide _) as [_|Hne]; [reflexivity|contradiction].
  - intros ->. cbn. now rewrite app_nil_r.
Qed.

End Headers.

Section Requests.

Context {lib : GoLib} {pkg : Package lib}.

Lemma sent_get_session {A : Type} (k : API -> Op lib A) (st : State lib) :
  sent (bind get_session k) st = sent (k (session st)) st.
Proof. reflexivity. Qed.

(** A continuation that puts nothing on the wire does not change what a
    call sends. *)
Lemma sent_bind_quiet {A B : Type} (m : Op lib A) (k : A -> Op lib B) (st : State lib) :
  (forall a s, wire (snd (k a s)) = wire s) ->
  sent (bind m k) st = sent m st.
Proof.
  intros Hquiet. unfold sent, bind.
  destruct (m st) as [[a|] s1]; cbn; [now rewrite Hquiet|reflexivity].
Qed.

(** Method, URL and body of a built request. *)
Lemma build_request_line (token requestURL method : string)
    (payload : option string) (headers : list (string * string)) (req : Request) :
  build_request lib token requestURL method payload headers = inr req ->
  Method req = TrimSpace lib method /\
  URL req = TrimSpace lib requestURL /\
  Body req = if (0 <? len payload)%nat then payload else None.
Proof.
  assert (Hadd : forall k v r,
            Method (Header_Add lib k v r) = Method r /\
            URL (Header_Add lib k v r) = URL r /\
            Body (Header_Add lib k v r) = Body r) by (intros; repeat split).
  assert (Hall : forall hs r,
            Method (add_headers lib hs r) = Method r /\
            URL (add_headers lib hs r) = URL r /\
            Body (add_headers lib hs r) = Body r).
  { unfold add_headers. induction hs as [|kv hs IH]; intros r; cbn [fold_left].
    - repeat split.
    - destruct (IH (Header_Add lib (fst kv) (snd kv) r)) as (-> & -> & ->).
      apply Hadd. }
  unfold build_request, http_NewRequest.
  destruct (NewRequest_check lib _ _) as [httpErr|].
  { destruct (0 <? len payload)%nat; discriminate. }
  destruct (0 <? len payload)%nat; destruct (nonempty token);
    intros Hbuild; injection Hbuild as <-;
    repeat match goal with
      | |- context [Header_Add lib ?k ?v ?r] =>
          destruct (Hadd k v r) as (-> & -> & ->)
      | |- context [add_headers lib ?hs ?r] =>
          destruct (Hall hs r) as (-> & -> & ->)
      end; repeat split.
Qed.

(** A request is built exactly when [http.NewRequest] accepts the
    trimmed method and URL. *)
Lemma build_request_accepted (token requestURL method : string)
    (payload : option string) (headers : list (string * string)) :
  NewRequest_check lib (TrimSpace lib method) (TrimSpace lib requestURL) = None ->
  exists req, build_request lib token requestURL method payload headers = inr req.
Proof.
  intros Hcheck. unfold build_request, http_NewRequest. rewrite Hcheck.
  destruct (0 <? len payload)%nat; eexists; reflexivity.
Qed.

Lemma build_request_rejected (token requestURL method : string)
    (payload : option string) (headers : list (string * string))
    (httpErr : net_error lib) :
  NewRequest_check lib (TrimSpace lib method) (TrimSpace lib requestURL) = Some httpErr ->
  build_request lib token requestURL method payload headers = inl httpErr.
Proof.
  intros Hcheck. unfold build_request, http_NewRequest. rewrite Hcheck.
  destruct (0 <? len payload)%nat; reflexivity.
Qed.


(** C3. [Signin] stores the token of the decoded auth response in
    [AuthToken] exactly when the dispatched request succeeds.  When the
    credentials serialize and [http.NewRequest] accepts the sign-in URL,
    [Signin] dispatches exactly one request.  When the request that
    [Signin] dispatches is answered with a status below 300 and the body
    decodes without error into [retval], [Signin] returns no error and
    leaves the session with [retval.Credentials.Token] as its token,
    every other field as it was.  Conversely [Signin] always returns, a
    run that returns no error is such a run, and a run that returns an
    error (the credentials could not be serialized, or the dispatch
    failed) leaves the session, [AuthToken] included, as it was. *)
Theorem Signin_stores_token_on_success
    (username password contentURL userIDToImpersonate : string) (st : State lib) :
  (forall payload,
      SigninRequest_XML pkg
        {| Signin_Request :=
             {| Cred_Name := username; Password := password; Token := "";
                Impersonate :=
                  if nonempty userIDToImpersonate
                  then Some {| User_ID := userIDToImpersonate |} else None;
                Cred_Site :=
                  Some {| Site_ID := "";
                          ContentUrl :=
                            if OmitDefaultSiteName (session st)
                            then if String.eqb contentURL (DefaultSiteName (session st))
                                 then "" else contentURL
                            else contentURL |} |} |}
      = inr payload ->
      NewRequest_check lib (TrimSpace lib POST)
        (TrimSpace lib (versioned "/auth/signin" (session st))) = None ->
      exists req,
        build_request lib (AuthToken (session st))
          (versioned "/auth/signin" (session st)) POST (Some payload)
          [(content_type_header, application_xml_content_type)] = inr req /\
        sent (Signin (pkg := pkg) username password contentURL
                userIDToImpersonate) st
        = [(NewTimeoutClient (connectTimeOut pkg) (readWriteTimeout pkg) false, req)])
  /\
  (forall client req code body retval,
      In (client, req)
        (sent (Signin (pkg := pkg) username password contentURL
                 userIDToImpersonate) st) ->
      answered st client req code body ->
      code < 300 ->
      xml_Unmarshal body (zero : AuthResponse) = (retval, None) ->
      exists st',
        Signin (pkg := pkg) username password contentURL userIDToImpersonate st
        = (Returns None, st') /\
        session st' = set_AuthToken (Token (Auth_Credentials retval)) (session st))
  /\
  exists err st',
    Signin (pkg := pkg) username password contentURL userIDToImpersonate st
    = (Returns err, st') /\
    match err with
    | None =>
        exists payload req code body retval,
          build_request lib (AuthToken (session st))
            (versioned "/auth/signin" (session st)) POST (Some payload)
            [(content_type_header, application_xml_content_type)] = inr req /\
          answered st
            (NewTimeoutClient (connectTimeOut pkg) (readWriteTimeout pkg) false)
            req code body /\
          code < 300 /\
          xml_Unmarshal body (zero : AuthResponse) = (retval, None) /\
          session st' = set_AuthToken (Token (Auth_Credentials retval)) (session st)
    | Some _ => session st' = session st
    end.
Proof.
  split; [|split; [|apply Signin_outcome]].
  { intros payload Hxml Hcheck.
    destruct (build_request_accepted (AuthToken (session st)) _ _ (Some payload)
                [(content_type_header, application_xml_content_type)] Hcheck)
      as [req Hbuild].
    exists req. split; [exact Hbuild|].
    unfold Signin. rewrite sent_get_session.
    cbv beta iota zeta. rewrite Hxml.
    rewrite sent_bind_quiet, makeRequest_sent;
      [|intros [result [err|]] ?; reflexivity].
    unfold versioned in Hbuild. now rewrite Hbuild. }
  intros client req code body retval.
  unfold Signin. rewrite sent_get_session.
  match goal with
  | |- context [bind get_session ?k st] =>
      change (bind get_session k st) with (k (session st) st)
  end.
  cbv beta iota zeta.
  destruct (SigninRequest_XML pkg _) as [xerr|payload].
  { unfold sent, ret. cbn [fst snd]. rewrite drop_all. intros []. }
  rewrite sent_bind_quiet, makeRequest_sent;
    [|intros [result [err|]] ?; reflexivity].
  destruct (build_request lib _ _ _ _ _) as [httpErr|built] eqn:Hbuild;
    [intros []|].
  intros [Hin|[]] Hanswer Hcode Hdecode. injection Hin as <- <-.
  match goal with
  | |- context [makeRequest ?u ?m ?p ?r ?h ?c ?w ?f] =>
      pose proof (makeRequest_frame (pkg := pkg) u m p r h c w f st)
        as (Hsession & _ & _);
      pose proof (makeRequest_answered (pkg := pkg) u m p r h c w f st
                    built code body Hbuild Hanswer) as Hend;
      unfold bind;
      destruct (makeRequest (pkg := pkg) u m p r h c w f st)
        as [[[res err]|] st1]
  end; cbn in Hsession, Hend;
    unfold interpret_response, decode_result in Hend; cbn in Hend;
    destruct (Z.eqb_spec code 404); try lia;
    destruct (Z.leb_spec 300 code); try lia;
    rewrite Hdecode in Hend; [|discriminate].
  injection Hend as -> ->.
  eexists. split; [reflexivity|].
  cbn. now rewrite Hsession.
Qed.

End Requests.

Section Projects.

Context {lib : GoLib} {pkg : Package lib}.

(** The scan of a list stops at the first element that passes the
    test. *)
Lemma find_first {A : Type} (test : A -> bool) (before : list A) (x : A)
    (after : list A) :
  test x = true ->
  (forall y, In y before -> test y = false) ->
  find test (before ++ x :: after) = Some x.
Proof.
  intros Hx Hbefore.
  induction before as [|y before IH]; cbn.
  - now rewrite Hx.
  - rewrite (Hbefore y) by now left.
    apply IH. intros z Hz. apply Hbefore. now right.
Qed.

Lemma find_nowhere {A : Type} (test : A -> bool) (l : list A) :
  (forall y, In y l -> test y = false) ->
  find test l = None.
Proof.
  intros Hl. induction l as [|y l IH]; cbn; [reflexivity|].
  rewrite (Hl y) by now left.
  apply IH. intros z Hz. apply Hl. now right.
Qed.

(** C7. For every site ID and name, when the query of the projects
    succeeds, [GetProjectByName] returns the first project of the list
    whose [Name] is the given name, without error; and when no project
    of the list has that name, it returns the zero [Project] and the
    error of [fmt.Errorf] whose message holds the name as given. *)
Theorem GetProjectByName_first_match (siteID name : string)
    (st st' : State lib) (projects : list Project) :
  QueryProjects (pkg := pkg) siteID st = (Returns (projects, None), st') ->
  (forall before project after,
      projects = before ++ project :: after ->
      Project_Name project = name ->
      (forall other, In other before -> Project_Name other <> name) ->
      GetProjectByName (pkg := pkg) siteID name st
      = (Returns (project, None), st'))
  /\
  ((forall other, In other projects -> Project_Name other <> name) ->
   exists msg,
     GetProjectByName (pkg := pkg) siteID name st
     = (Returns (zero, Some (Errorf msg)), st') /\
     msg = "Project Named '" +:+ name +:+ "' Not Found" /\
     contains name msg).
Proof.
  intros Hquery. unfold GetProjectByName, bind. rewrite Hquery.
  split.
  - intros before project after -> Hname Hbefore.
    rewrite find_first; [reflexivity| |].
    + now apply String.eqb_eq.
    + intros other Hin. apply String.eqb_neq. now apply Hbefore.
  - intros Hnone.
    rewrite find_nowhere.
    + eexists. split; [reflexivity|]. split; [reflexivity|].
      exists "Project Named '", "' Not Found". reflexivity.
    + intros other Hin. apply String.eqb_neq. now apply Hnone.
Qed.

End Projects.

(** Byte strings under concatenation. *)
Lemma append_assoc (a b c : string) : (a +:+ b) +:+ c = a +:+ b +:+ c.
Proof. induction a as [|x a IH]; simpl; [reflexivity|now f_equal]. Qed.

Lemma append_empty_r (a : string) : a +:+ "" = a.
Proof. induction a as [|x a IH]; simpl; [reflexivity|now f_equal]. Qed.

Lemma last_byte_append (front suffix : string) :
  suffix <> "" -> last_byte (front +:+ suffix) = last_byte suffix.
Proof.
  intros Hsuffix. induction front as [|x front IH]; [reflexivity|].
  cbn [String.append last_byte]. rewrite IH.
  destruct (front +:+ suffix) eqn:Happ; [|reflexivity].
  destruct front; cbn in Happ; [contradiction|discriminate].
Qed.

(** A string ends with the last byte of any non-empty string it ends
    with. *)
Lemma ends_with_last_byte (suffix s : string) :
  ends_with suffix s -> suffix <> "" -> last_byte s = last_byte suffix.
Proof. intros [front ->] Hsuffix. now apply last_byte_append. Qed.

Section Publish.

Context {lib : GoLib} {pkg : Package lib}.

Lemma sent_ret {A : Type} (a : A) (st : State lib) : sent (ret a) st = [].
Proof. unfold sent, ret. cbn. apply drop_all. Qed.

(** [publishDatasource] returns, and what it returns as the datasource
    is the nil pointer, on every run. *)
Lemma publishDatasource_retval_nil (siteID : string) (tdsMetadata : Datasource)
    (datasource datasourceType : string) (overwrite : bool) (st : State lib) :
  exists err,
    fst (publishDatasource (pkg := pkg) siteID tdsMetadata datasource
           datasourceType overwrite st)
    = Returns (None, err).
Proof.
  unfold publishDatasource. unfold bind at 1. unfold get_session at 1.
  cbv beta iota zeta.
  destruct (DatasourceCreateRequest_XML pkg _) as [xerr|xml].
  { eexists. reflexivity. }
  match goal with
  | |- context [makeRequest ?u ?m ?p ?r ?h ?c ?w ?f] =>
      destruct (makeRequest_inv (pkg := pkg) u m p r h c w f st)
        as [[httpErr Hend]|(req & code & body & _ & _ & Hend)];
      unfold bind;
      destruct (makeRequest (pkg := pkg) u m p r h c w f st) as [[[res err]|] st1]
  end; cbn in Hend.
  - eexists. reflexivity.
  - discriminate Hend.
  - eexists. reflexivity.
  - unfold interpret_response, decode_result in Hend. cbn in Hend.
    destruct (code =? 404); [discriminate|].
    destruct (300 <=? code).
    { destruct (xml_Unmarshal body _) as [tErrorResponse [xerr|]]; discriminate. }
    destruct (xml_Skip lib body); discriminate.
Qed.

(** C6, as the code has it.  For boundary B1, a datasource named Sales
    and the content <rows/>, the body of the request that
    [publishDatasource] sends begins with --B1, has a part with
    Content-Disposition name="request_payload" that holds the serialized
    metadata, has a part with Content-Disposition
    name="tableau_datasource"; filename="Sales.tds" that holds <rows/>,
    and ends with --B1-- followed by a line break (CR LF). *)
Theorem publishDatasource_multipart_body (siteID : string) (tdsMetadata : Datasource)
    (datasourceType : string) (overwrite : bool) (st : State lib)
    (client : Client) (req : Request) :
  Boundary (session st) = "B1" ->
  Datasource_Name tdsMetadata = "Sales" ->
  In (client, req)
    (sent (publishDatasource (pkg := pkg) siteID tdsMetadata "<rows/>"
             datasourceType overwrite) st) ->
  exists xml body,
    DatasourceCreateRequest_XML pkg {| DatasourceCreate_Request := tdsMetadata |}
      = inr xml /\
    Body req = Some body /\
    begins_with "--B1" body /\
    has_part "B1" ("name=" +:+ dquote +:+ "request_payload" +:+ dquote) xml body /\
    has_part "B1"
      ("name=" +:+ dquote +:+ "tableau_datasource" +:+ dquote
         +:+ "; filename=" +:+ dquote +:+ "Sales.tds" +:+ dquote)
      "<rows/>" body /\
    ends_with ("--B1--" +:+ CRLF) body.
Proof.
  intros Hboundary Hname.
  unfold publishDatasource. rewrite sent_get_session. cbv beta zeta.
  rewrite Hboundary, Hname.
  destruct (DatasourceCreateRequest_XML pkg _) as [xerr|xml].
  { rewrite sent_ret. intros []. }
  rewrite sent_bind_quiet, makeRequest_sent;
    [|intros [result err] s; reflexivity].
  destruct (build_request lib _ _ _ _ _) as [httpErr|built] eqn:Hbuild;
    [intros []|].
  intros [Hin|[]]. injection Hin as _ <-.
  destruct (build_request_line _ _ _ _ _ _ Hbuild) as (_ & _ & Hbody).
  cbn in Hbody.
  exists xml. eexists. split; [reflexivity|]. split; [exact Hbody|].
  rewrite !append_assoc. cbn.
  split; [|split; [|split]].
  - eexists. reflexivity.
  - exists "", "text/xml". eexists. cbn. reflexivity.
  - exists ("--B1" +:+ CRLF +:+ "Content-Disposition: name=" +:+ dquote
            +:+ "request_payload" +:+ dquote +:+ CRLF
            +:+ "Content-Type: text/xml" +:+ CRLF +:+ CRLF +:+ xml +:+ CRLF),
      "application/octet-stream", ("--" +:+ CRLF).
    rewrite !append_assoc. cbn. reflexivity.
  - exists ("--B1" +:+ CRLF +:+ "Content-Disposition: name=" +:+ dquote
            +:+ "request_payload" +:+ dquote +:+ CRLF
            +:+ "Content-Type: text/xml" +:+ CRLF +:+ CRLF +:+ xml +:+ CRLF
            +:+ "--B1" +:+ CRLF
            +:+ "Content-Disposition: name=" +:+ dquote +:+ "tableau_datasource"
            +:+ dquote +:+ "; filename=" +:+ dquote +:+ "Sales.tds" +:+ dquote +:+ CRLF
            +:+ "Content-Type: application/octet-stream" +:+ CRLF +:+ CRLF
            +:+ "<rows/>" +:+ CRLF).
    rewrite !append_assoc. cbn. reflexivity.
Qed.

End Publish.

Section Endpoints.

Context {lib : GoLib} {pkg : Package lib}.

Lemma targets_makeRequest {T : Type} `{!Decodable lib T}
    (requestURL method : string) (payload : option string) (result : Target T)
    (headers : list (string * string)) (cTimeout rwTimeout : Duration)
    (format : string) (st : State lib) :
  sent (makeRequest (pkg := pkg) requestURL method payload result headers
          cTimeout rwTimeout format) st = [] \/
  exists client req,
    sent (makeRequest (pkg := pkg) requestURL method payload result headers
            cTimeout rwTimeout format) st = [(client, req)] /\
    Method req = TrimSpace lib method /\
    URL req = TrimSpace lib requestURL.
Proof.
  rewrite makeRequest_sent.
  destruct (build_request lib _ _ _ _ _) as [httpErr|req] eqn:Hbuild;
    [now left|right].
  destruct (build_request_line _ _ _ _ _ _ Hbuild) as (Hmethod & Hurl & _).
  now exists (NewTimeoutClient cTimeout rwTimeout false), req.
Qed.

Lemma dispatches_makeRequest {T : Type} `{!Decodable lib T}
    (requestURL method : string) (payload : option string) (result : Target T)
    (headers : list (string * string)) (cTimeout rwTimeout : Duration)
    (format : string) (st : State lib) :
  match NewRequest_check lib (TrimSpace lib method) (TrimSpace lib requestURL) with
  | None =>
      exists client req,
        sent (makeRequest (pkg := pkg) requestURL method payload result headers
                cTimeout rwTimeout format) st = [(client, req)] /\
        Method req = TrimSpace lib method /\
        URL req = TrimSpace lib requestURL
  | Some _ =>
      sent (makeRequest (pkg := pkg) requestURL method payload result headers
              cTimeout rwTimeout format) st = []
  end.
Proof.
  rewrite makeRequest_sent.
  destruct (NewRequest_check lib _ _) as [httpErr|] eqn:Hcheck.
  - now rewrite (build_request_rejected _ _ _ _ _ _ Hcheck).
  - destruct (build_request_accepted (AuthToken (session st)) _ _ payload headers Hcheck)
      as [req Hbuild].
    rewrite Hbuild.
    destruct (build_request_line _ _ _ _ _ _ Hbuild) as (Hmethod & Hurl & _).
    now exists (NewTimeoutClient cTimeout rwTimeout false), req.
Qed.

Ltac quiet_rest :=
  intros [? [?|]] ?; reflexivity.

Ltac one_request :=
  rewrite ?sent_get_session; cbv beta zeta;
  rewrite ?sent_bind_quiet by quiet_rest;
  rewrite ?append_assoc;
  apply dispatches_makeRequest.

Lemma dispatches_QueryProjects (siteID : string) :
  dispatches (QueryProjects (pkg := pkg) siteID) GET
    (versioned ("/sites/" +:+ siteID +:+ "/projects")).
Proof. intros st. unfold QueryProjects, versioned. one_request. Qed.

Lemma dispatches_querySiteByKey (key value : string) (includeStorage : bool) :
  dispatches (querySiteByKey (pkg := pkg) key value includeStorage) GET
    (versioned ("/sites/" +:+ value +:+ "?key=" +:+ key
                +:+ if includeStorage then "&includeStorage=true" else "")).
Proof.
  intros st. unfold querySiteByKey, querySite, versioned.
  destruct includeStorage; cbn [fmt_bool]; rewrite ?append_empty_r; one_request.
Qed.

Lemma dispatches_delete (path : string) (st : State lib) :
  match NewRequest_check lib (TrimSpace lib DELETE)
          (TrimSpace lib (versioned path (session st))) with
  | None =>
      exists client req,
        sent (delete (pkg := pkg) (versioned path (session st))) st = [(client, req)] /\
        Method req = TrimSpace lib DELETE /\
        URL req = TrimSpace lib (versioned path (session st))
  | Some _ => sent (delete (pkg := pkg) (versioned path (session st))) st = []
  end.
Proof. unfold delete. one_request. Qed.

(** C10. [ServerInfo] sends its request to the server's URL followed by
    /api/2.4/serverinfo, with the literal version 2.4 (the request goes
    out whenever [http.NewRequest] accepts that URL), and running
    [ServerInfo] on a session with any other [Version] sends the same
    requests.  Every other operation sends its request to a URL that
    holds the [Version] of the session after /api/; the three that
    serialize a payload first send nothing when the serialization
    fails. *)
Theorem ServerInfo_fixed_version :
  dispatches (ServerInfo (pkg := pkg)) GET
    (fun api => Server api +:+ "/api/2.4/serverinfo")
  /\ (forall st v,
        sent (ServerInfo (pkg := pkg)) (set_Version v st)
        = sent (ServerInfo (pkg := pkg)) st)
  /\ (forall username password contentURL userIDToImpersonate,
        targets (Signin (pkg := pkg) username password contentURL userIDToImpersonate)
          POST (versioned "/auth/signin"))
  /\ dispatches (Signout (pkg := pkg)) POST (versioned "/auth/signout")
  /\ dispatches (QuerySites (pkg := pkg)) GET (versioned "/sites/")
  /\ (forall siteID includeStorage,
        dispatches (QuerySite (pkg := pkg) siteID includeStorage) GET
          (versioned ("/sites/" +:+ siteID
                      +:+ if includeStorage then "?includeStorage=true" else "")))
  /\ (forall name includeStorage,
        dispatches (QuerySiteByName (pkg := pkg) name includeStorage) GET
          (versioned ("/sites/" +:+ name +:+ "?key=name"
                      +:+ if includeStorage then "&includeStorage=true" else "")))
  /\ (forall contentURL includeStorage,
        dispatches (QuerySiteByContentURL (pkg := pkg) contentURL includeStorage) GET
          (versioned ("/sites/" +:+ contentURL +:+ "?key=contentURL"
                      +:+ if includeStorage then "&includeStorage=true" else "")))
  /\ (forall siteID userID,
        dispatches (QueryUserOnSite (pkg := pkg) siteID userID) GET
          (versioned ("/sites/" +:+ siteID +:+ "/users/" +:+ userID)))
  /\ (forall siteID,
        dispatches (QueryProjects (pkg := pkg) siteID) GET
          (versioned ("/sites/" +:+ siteID +:+ "/projects")))
  /\ (forall siteID,
        dispatches (QueryViews (pkg := pkg) siteID) GET
          (versioned ("/sites/" +:+ siteID +:+ "/views")))
  /\ (forall siteID workbookID values,
        dispatches (QueryWorkbookViews (pkg := pkg) siteID workbookID values) GET
          (versioned ("/sites/" +:+ siteID +:+ "/workbooks/" +:+ workbookID
                      +:+ "/views"
                      +:+ if String.eqb (Values_Encode lib values) "" then ""
                          else "?" +:+ Values_Encode lib values)))
  /\ (forall siteID viewID,
        dispatches (QueryViewData (pkg := pkg) siteID viewID) GET
          (versioned ("/sites/" +:+ siteID +:+ "/views/" +:+ viewID +:+ "/data")))
  /\ (forall siteID values,
        dispatches (QueryWorkbooks (pkg := pkg) siteID values) GET
          (versioned ("/sites/" +:+ siteID +:+ "/workbooks"
                      +:+ if String.eqb (Values_Encode lib values) "" then ""
                          else "?" +:+ Values_Encode lib values)))
  /\ (forall siteID name,
        dispatches (GetProjectByName (pkg := pkg) siteID name) GET
          (versioned ("/sites/" +:+ siteID +:+ "/projects")))
  /\ (forall siteID ID,
        dispatches (GetProjectByID (pkg := pkg) siteID ID) GET
          (versioned ("/sites/" +:+ siteID +:+ "/projects")))
  /\ (forall siteID,
        dispatches (QueryDatasources (pkg := pkg) siteID) GET
          (versioned ("/sites/" +:+ siteID +:+ "/datasources")))
  /\ (forall siteName,
        dispatches (GetSiteID (pkg := pkg) siteName) GET
          (versioned ("/sites/" +:+ siteName +:+ "?key=name")))
  /\ (forall siteID project,
        targets (CreateProject (pkg := pkg) siteID project) POST
          (versioned ("/sites/" +:+ siteID +:+ "/projects")))
  /\ (forall siteID tdsMetadata fullTds overwrite,
        targets (PublishTDS (pkg := pkg) siteID tdsMetadata fullTds overwrite) POST
          (versioned ("/sites/" +:+ siteID +:+ "/datasources?datasourceType=tds"
                      +:+ "&overwrite=" +:+ fmt_bool overwrite)))
  /\ (forall siteID datasourceID,
        dispatches (DeleteDatasource (pkg := pkg) siteID datasourceID) DELETE
          (versioned ("/sites/" +:+ siteID +:+ "/datasources/" +:+ datasourceID)))
  /\ (forall siteID projectID,
        dispatches (DeleteProject (pkg := pkg) siteID projectID) DELETE
          (versioned ("/sites/" +:+ siteID +:+ "/projects/" +:+ projectID)))
  /\ (forall siteID,
        dispatches (DeleteSite (pkg := pkg) siteID) DELETE
          (versioned ("/sites/" +:+ siteID)))
  /\ (forall name,
        dispatches (DeleteSiteByName (pkg := pkg) name) DELETE
          (versioned ("/sites/" +:+ name +:+ "?key=name")))
  /\ (forall contentURL,
        dispatches (DeleteSiteByContentURL (pkg := pkg) contentURL) DELETE
          (versioned ("/sites/" +:+ contentURL +:+ "?key=contentUrl"))).
Proof.
  repeat match goal with |- _ /\ _ => split end.
  - intros st. unfold ServerInfo. one_request.
  - intros st v. unfold ServerInfo.
    rewrite !sent_get_session. cbv beta zeta.
    rewrite !sent_bind_quiet by quiet_rest. rewrite !makeRequest_sent.
    reflexivity.
  - intros username password contentURL userIDToImpersonate st.
    unfold Signin, versioned. rewrite sent_get_session. cbv beta zeta.
    destruct (SigninRequest_XML pkg _) as [xerr|payload]; [left; apply sent_ret|].
    rewrite sent_bind_quiet; [apply targets_makeRequest|].
    intros [result [err|]] ?; reflexivity.
  - intros st. unfold Signout, versioned. one_request.
  - intros st. unfold QuerySites, versioned. one_request.
  - intros siteID includeStorage st. unfold QuerySite, querySite, versioned.
    destruct includeStorage; cbn [fmt_bool]; rewrite ?append_empty_r; one_request.
  - intros name includeStorage. apply dispatches_querySiteByKey.
  - intros contentURL includeStorage. apply dispatches_querySiteByKey.
  - intros siteID userID st. unfold QueryUserOnSite, versioned. one_request.
  - apply dispatches_QueryProjects.
  - intros siteID st. unfold QueryViews, versioned. one_request.
  - intros siteID workbookID values st. unfold QueryWorkbookViews, versioned.
    destruct (String.eqb_spec (Values_Encode lib values) "") as [->|_]; one_request.
  - intros siteID viewID st. unfold QueryViewData, versioned. one_request.
  - intros siteID values st. unfold QueryWorkbooks, versioned.
    destruct (String.eqb_spec (Values_Encode lib values) "") as [->|_]; one_request.
  - intros siteID name st. unfold GetProjectByName.
    rewrite sent_bind_quiet; [apply dispatches_QueryProjects|].
    intros [projects [err|]] ?; [reflexivity|].
    now destruct (find _ projects).
  - intros siteID ID st. unfold GetProjectByID.
    rewrite sent_bind_quiet; [apply dispatches_QueryProjects|].
    intros [projects [err|]] ?; [reflexivity|].
    now destruct (find _ projects).
  - intros siteID st. unfold QueryDatasources, versioned. one_request.
  - intros siteName st. unfold GetSiteID, QuerySiteByName.
    rewrite sent_bind_quiet by quiet_rest.
    pose proof (dispatches_querySiteByKey "name" siteName false st) as Hkey.
    cbn in Hkey. exact Hkey.
  - intros siteID project st. unfold CreateProject, versioned.
    rewrite sent_get_session. cbv beta zeta.
    destruct (CreateProjectRequest_XML pkg _) as [xerr|xmlRep];
      [left; apply sent_ret|].
    rewrite sent_bind_quiet by quiet_rest. apply targets_makeRequest.
  - intros siteID tdsMetadata fullTds overwrite st.
    unfold PublishTDS, publishDatasource, versioned.
    rewrite sent_get_session. cbv beta zeta.
    destruct (DatasourceCreateRequest_XML pkg _) as [xerr|xml];
      [left; apply sent_ret|].
    rewrite sent_bind_quiet by (intros [? ?] ?; reflexivity).
    apply targets_makeRequest.
  - intros siteID datasourceID st. unfold DeleteDatasource.
    rewrite sent_get_session. apply dispatches_delete.
  - intros siteID projectID st. unfold DeleteProject.
    rewrite sent_get_session. apply dispatches_delete.
  - intros siteID st. unfold DeleteSite.
    rewrite sent_get_session. apply dispatches_delete.
  - intros name st. unfold DeleteSiteByName, deleteSiteByKey.
    rewrite sent_get_session. apply dispatches_delete.
  - intros contentURL st. unfold DeleteSiteByContentURL, deleteSiteByKey.
    rewrite sent_get_session. apply dispatches_delete.
Qed.

End Endpoints.

(** ** Concrete runs *)

Section Runs.

Import Fixture.

Example Signin_success_run :
  Signin (pkg := pkg) "alice" "secret" "Default" "" (start api0 [(200, "<t0ken>")])
  = (Returns None, signed_in)
  /\ AuthToken (session signed_in) = "<t0ken>".
Proof. split; reflexivity. Qed.

Example Signin_failure_run :
  let st := start api0 [(401, "<error>Bad credentials</error>")] in
  fst (Signin (pkg := pkg) "alice" "wrong" "Default" "" st)
  = Returns (Some (ServerError "<error>Bad credentials</error>"))
  /\ AuthToken (session (snd (Signin (pkg := pkg) "alice" "wrong" "Default" "" st))) = "".
Proof. split; reflexivity. Qed.

Example Signin_default_site_payload :
  map (fun cr => Body (snd cr))
    (sent (Signin (pkg := pkg) "alice" "secret" "Default" "") (start api0 []))
  = [Some "<tsRequest site=''/>"]
  /\ map (fun cr => Body (snd cr))
       (sent (Signin (pkg := pkg) "alice" "secret" "Marketing" "") (start api0 []))
     = [Some "<tsRequest site='Marketing'/>"].
Proof. split; reflexivity. Qed.

Lemma makeRequest_404_sentinel_witness :
  build_request lib "" query_url GET None [] = inr query_request /\
  answered (start api0 [(404, "<<< not XML")]) client0 query_request 404 "<<< not XML" /\
  fst (makeRequest (pkg := pkg) query_url GET None
         (pointer (zero : QueryProjectsResponse)) []
         (connectTimeOut pkg) (readWriteTimeout pkg) ""
         (start api0 [(404, "<<< not XML")]))
  = Returns (pointer (zero : QueryProjectsResponse), Some ErrDoesNotExist).
Proof.
  assert (Hbuild : build_request lib "" query_url GET None [] = inr query_request)
    by reflexivity.
  assert (Hanswer : answered (start api0 [(404, "<<< not XML")]) client0
                      query_request 404 "<<< not XML").
  { eexists _, _, _. repeat split; reflexivity. }
  split; [exact Hbuild|]. split; [exact Hanswer|].
  exact (makeRequest_404_sentinel (pkg := pkg) query_url GET None
           (pointer (zero : QueryProjectsResponse)) []
           (connectTimeOut pkg) (readWriteTimeout pkg) ""
           (start api0 [(404, "<<< not XML")]) query_request "<<< not XML"
           Hbuild Hanswer).
Defined.

Lemma makeRequest_error_status_witness :
  fst (makeRequest (pkg := pkg) query_url GET None
         (pointer (zero : QueryProjectsResponse)) []
         (connectTimeOut pkg) (readWriteTimeout pkg) ""
         (start api0 [(503, "Service Unavailable")]))
  = Returns (pointer (zero : QueryProjectsResponse), Some (XMLError "syntax error"))
  /\ fst (makeRequest (pkg := pkg) query_url GET None
            (pointer (zero : QueryProjectsResponse)) []
            (connectTimeOut pkg) (readWriteTimeout pkg) ""
            (start api0 [(400, "Service Unavailable")]))
     = fst (makeRequest (pkg := pkg) query_url GET None
              (pointer (zero : QueryProjectsResponse)) []
              (connectTimeOut pkg) (readWriteTimeout pkg) ""
              (start api0 [(503, "Service Unavailable")])).
Proof.
  assert (Hbuild : build_request lib "" query_url GET None [] = inr query_request)
    by reflexivity.
  assert (Hanswer : forall code,
            answered (start api0 [(code, "Service Unavailable")]) client0
              query_request code "Service Unavailable").
  { intros code. eexists _, _, _. repeat split; reflexivity. }
  destruct (makeRequest_error_status (pkg := pkg) query_url GET None
              (pointer (zero : QueryProjectsResponse)) []
              (connectTimeOut pkg) (readWriteTimeout pkg) ""
              (start api0 [(503, "Service Unavailable")]) query_request 503
              "Service Unavailable" Hbuild (Hanswer 503) ltac:(lia) ltac:(lia))
    as [Hreturned Hsame].
  split; [exact Hreturned|].
  apply (Hsame (start api0 [(400, "Service Unavailable")]) query_request 400);
    [exact Hbuild|exact (Hanswer 400)|lia|lia].
Defined.

Lemma Signin_stores_token_on_success_witness :
  let request :=
    Header_Add lib content_type_header application_xml_content_type
      (Header_Add lib content_length_header "20"
         {| Method := POST; URL := "https://tableau.example/api/2.0/auth/signin";
            Body := Some "<tsRequest site=''/>"; Header := ∅ |}) in
  sent (Signin (pkg := pkg) "alice" "secret" "Default" "")
    (start api0 [(200, "<t0ken>")])
  = [(client0, request)] /\
  answered (start api0 [(200, "<t0ken>")]) client0 request 200 "<t0ken>" /\
  (exists st',
      Signin (pkg := pkg) "alice" "secret" "Default" "" (start api0 [(200, "<t0ken>")])
      = (Returns None, st') /\
      AuthToken (session st') = "<t0ken>" /\
      Server (session st') = Server api0) /\
  (exists err st',
      Signin (pkg := pkg) "alice" "secret" "Default" ""
        (start api0 [(401, "<error>Bad credentials</error>")])
      = (Returns (Some err), st') /\
      session st' = api0).
Proof.
  intros request.
  pose proof (Signin_stores_token_on_success (pkg := pkg)
                "alice" "secret" "Default" "" (start api0 [(200, "<t0ken>")]))
    as (Hdispatch & Hstore & _).
  destruct (Hdispatch "<tsRequest site=''/>" eq_refl eq_refl)
    as (req & Hbuild & Hsent).
  assert (Hreq : req = request) by (injection Hbuild as <-; reflexivity).
  subst req.
  assert (Hanswer : answered (start api0 [(200, "<t0ken>")]) client0 request
                      200 "<t0ken>").
  { eexists _, _, _. repeat split; reflexivity. }
  split; [exact Hsent|]. split; [exact Hanswer|]. split.
  - destruct (Hstore client0 request 200 "<t0ken>" (with_token "<t0ken>" zero)
                ltac:(rewrite Hsent; left; reflexivity) Hanswer ltac:(lia) eq_refl)
      as (st' & Hrun & Hsession).
    exists st'. split; [exact Hrun|]. now rewrite Hsession.
  - destruct (proj2 (proj2 (Signin_stores_token_on_success (pkg := pkg)
                       "alice" "secret" "Default" ""
                       (start api0 [(401, "<error>Bad credentials</error>")]))))
      as (err & st' & Hrun & Hcase).
    assert (Hfails : fst (Signin (pkg := pkg) "alice" "secret" "Default" ""
                            (start api0 [(401, "<error>Bad credentials</error>")]))
                     = Returns (Some (ServerError "<error>Bad credentials</error>")))
      by reflexivity.
    rewrite Hrun in Hfails. cbn in Hfails. injection Hfails as ->.
    eexists _, st'. split; [exact Hrun|exact Hcase].
Defined.

Lemma Signout_keeps_AuthToken_witness :
  exists err st',
    Signout (pkg := pkg) signed_in = (Returns err, st') /\
    AuthToken (session st') = "<t0ken>".
Proof.
  exact (Signout_keeps_AuthToken (pkg := pkg) signed_in).
Defined.

Lemma auth_header_follows_token_witness :
  In (client0, authenticated_request)
    (sent (makeRequest (pkg := pkg) query_url GET None
             (pointer (zero : QueryProjectsResponse)) []
             (connectTimeOut pkg) (readWriteTimeout pkg) "") signed_in) /\
  Header_Values lib auth_header authenticated_request = ["<t0ken>"] /\
  In (client0, query_request)
    (sent (makeRequest (pkg := pkg) query_url GET None
             (pointer (zero : QueryProjectsResponse)) []
             (connectTimeOut pkg) (readWriteTimeout pkg) "") (start api0 [])) /\
  Header_Values lib auth_header query_request = [].
Proof.
  assert (Hsent : In (client0, authenticated_request)
            (sent (makeRequest (pkg := pkg) query_url GET None
                     (pointer (zero : QueryProjectsResponse)) []
                     (connectTimeOut pkg) (readWriteTimeout pkg) "") signed_in))
    by (left; reflexivity).
  assert (Hplain : In (client0, query_request)
            (sent (makeRequest (pkg := pkg) query_url GET None
                     (pointer (zero : QueryProjectsResponse)) []
                     (connectTimeOut pkg) (readWriteTimeout pkg) "") (start api0 [])))
    by (left; reflexivity).
  split; [exact Hsent|]. split; [|split; [exact Hplain|]].
  - exact (proj1 (auth_header_follows_token (pkg := pkg)
                    "alice" "secret" "Default" ""
                    (start api0 [(200, "<t0ken>")]) signed_in signed_in
                    query_url GET None (pointer (zero : QueryProjectsResponse)) []
                    (connectTimeOut pkg) (readWriteTimeout pkg) ""
                    client0 authenticated_request Hsent)
             eq_refl ltac:(discriminate) eq_refl).
  - exact (proj2 (auth_header_follows_token (pkg := pkg)
                    "alice" "secret" "Default" ""
                    (start api0 []) (start api0 []) (start api0 [])
                    query_url GET None (pointer (zero : QueryProjectsResponse)) []
                    (connectTimeOut pkg) (readWriteTimeout pkg) ""
                    client0 query_request Hplain)
             eq_refl).
Defined.


Lemma publishDatasource_multipart_body_witness :
  In (client0, publish_request)
    (sent (publishDatasource (pkg := pkg) "s1" sales "<rows/>" "tds" true)
       (start api0 publish_script)) /\
  exists xml body,
    DatasourceCreateRequest_XML pkg {| DatasourceCreate_Request := sales |} = inr xml /\
    Body publish_request = Some body /\
    begins_with "--B1" body /\
    has_part "B1" ("name=" +:+ dquote +:+ "request_payload" +:+ dquote) xml body /\
    has_part "B1"
      ("name=" +:+ dquote +:+ "tableau_datasource" +:+ dquote
         +:+ "; filename=" +:+ dquote +:+ "Sales.tds" +:+ dquote)
      "<rows/>" body /\
    ends_with ("--B1--" +:+ CRLF) body.
Proof.
  assert (Hsent : In (client0, publish_request)
            (sent (publishDatasource (pkg := pkg) "s1" sales "<rows/>" "tds" true)
               (start api0 publish_script)))
    by (left; reflexivity).
  split; [exact Hsent|].
  exact (publishDatasource_multipart_body (pkg := pkg) "s1" sales "tds" true
           (start api0 publish_script) client0 publish_request
           eq_refl eq_refl Hsent).
Defined.

(** C6, as the specification words it, fails on the body that
    [publishDatasource] sends for boundary B1, the datasource Sales and
    the content <rows/>: the body begins with --B1 and has both parts,
    but its last bytes are the line break after --B1--, so it does not
    end with --B1--. *)
Lemma multipart_body_does_not_end_with_delimiter :
  ~ (forall client req,
       In (client, req)
         (sent (publishDatasource (pkg := pkg) "s1" sales "<rows/>" "tds" true)
            (start api0 publish_script)) ->
       exists xml body,
         DatasourceCreateRequest_XML pkg {| DatasourceCreate_Request := sales |}
           = inr xml /\
         Body req = Some body /\
         begins_with "--B1" body /\
         has_part "B1" ("name=" +:+ dquote +:+ "request_payload" +:+ dquote) xml body /\
         has_part "B1"
           ("name=" +:+ dquote +:+ "tableau_datasource" +:+ dquote
              +:+ "; filename=" +:+ dquote +:+ "Sales.tds" +:+ dquote)
           "<rows/>" body /\
         ends_with "--B1--" body).
Proof.
  intros Hspec.
  destruct (Hspec client0 publish_request (or_introl eq_refl))
    as (xml & body & _ & Hbody & _ & _ & _ & Hends).
  apply ends_with_last_byte in Hends; [|discriminate].
  vm_compute in Hbody. injection Hbody as <-.
  vm_compute in Hends. discriminate Hends.
Qed.

Lemma GetProjectByName_first_match_witness :
  let st := start api0 [(200, "<tsResponse><projects/></tsResponse>")] in
  QueryProjects (pkg := pkg) "s1" st
  = (Returns (finance, None), snd (QueryProjects (pkg := pkg) "s1" st)) /\
  GetProjectByName (pkg := pkg) "s1" "Finance" st
  = (Returns ({| Project_ID := "p1"; Project_Name := "Finance" |}, None),
     snd (QueryProjects (pkg := pkg) "s1" st)) /\
  exists msg,
    GetProjectByName (pkg := pkg) "s1" "Payroll" st
    = (Returns (zero, Some (Errorf msg)), snd (QueryProjects (pkg := pkg) "s1" st)) /\
    msg = "Project Named 'Payroll' Not Found" /\
    contains "Payroll" msg.
Proof.
  intros st.
  assert (Hquery : QueryProjects (pkg := pkg) "s1" st
                   = (Returns (finance, None), snd (QueryProjects (pkg := pkg) "s1" st)))
    by reflexivity.
  split; [exact Hquery|]. split.
  - apply (proj1 (GetProjectByName_first_match (pkg := pkg) "s1" "Finance" st _
                    finance Hquery)
             [{| Project_ID := "p0"; Project_Name := "Sales" |}]
             {| Project_ID := "p1"; Project_Name := "Finance" |}
             [{| Project_ID := "p2"; Project_Name := "Finance" |}]).
    + reflexivity.
    + reflexivity.
    + intros other [<-|[]]. discriminate.
  - apply (proj2 (GetProjectByName_first_match (pkg := pkg) "s1" "Payroll" st _
                    finance Hquery)).
    intros other [<-|[<-|[<-|[]]]]; discriminate.
Defined.

(** C8, on the code.  A publication that the server answers with 201
    and the created datasource returns no error, and returns the nil
    pointer as the datasource; and so does every run of [PublishTDS],
    whatever the session, the arguments and the remote side are: the
    datasource returned is the nil pointer, so that nothing of the
    response is handed to the caller. *)
Theorem PublishTDS_success_returns_nil :
  fst (PublishTDS (pkg := pkg) "s1" sales "<rows/>" true (start api0 publish_script))
  = Returns (None, None)
  /\ forall (L : GoLib) (P : Package L) (siteID : string) (tdsMetadata : Datasource)
       (fullTds : string) (overwrite : bool) (st : State L),
       exists err,
         fst (PublishTDS (pkg := P) siteID tdsMetadata fullTds overwrite st)
         = Returns (None, err).
Proof.
  split; [reflexivity|].
  intros L P siteID tdsMetadata fullTds overwrite st.
  apply publishDatasource_retval_nil.
Qed.

Lemma ServerInfo_fixed_version_witness :
  map (fun cr => URL (snd cr)) (sent (ServerInfo (pkg := pkg)) (start api0 []))
  = ["https://tableau.example/api/2.4/serverinfo"]
  /\ sent (ServerInfo (pkg := pkg)) (set_Version "3.1" (start api0 []))
     = sent (ServerInfo (pkg := pkg)) (start api0 [])
  /\ map (fun cr => URL (snd cr)) (sent (QuerySites (pkg := pkg)) (start api0 []))
     = ["https://tableau.example/api/2.0/sites/"].
Proof.
  destruct (ServerInfo_fixed_version (pkg := pkg))
    as (Hinfo & Hsame & _ & _ & Hsites & _).
  split; [|split].
  - destruct (Hinfo (start api0 [])) as (client & req & -> & _ & Hurl).
    cbn [map snd]. now rewrite Hurl.
  - apply Hsame.
  - destruct (Hsites (start api0 [])) as (client & req & -> & _ & Hurl).
    cbn [map snd]. now rewrite Hurl.
Defined.

End Runs.

(** ** The dispatcher, path by path *)

Section Transport.

Context {lib : GoLib} {pkg : Package lib}.

(** A call whose request is sent and answered, whatever the reading of
    the body gives: the value returned and the state it leaves. *)
Lemma makeRequest_run {T : Type} `{!Decodable lib T}
    (requestURL method : string) (payload : option string) (result : Target T)
    (headers : list (string * string)) (cTimeout rwTimeout : Duration)
    (format : string) (st : State lib) (req : Request)
    (resp : Response (Stream lib)) (e1 e2 : Env lib)
    (body : string) (readBodyError : option (net_error lib)) :
  build_request lib (AuthToken (session st)) requestURL method payload headers
    = inr req ->
  RoundTrip lib (NewTimeoutClient cTimeout rwTimeout false) req (env st)
    = (inr resp, e1) ->
  ReadAll lib (Resp_Body resp) e1 = ((body, readBodyError), e2) ->
  makeRequest (pkg := pkg) requestURL method payload result headers
    cTimeout rwTimeout format st
  = (match readBodyError with
     | Some err => Returns (result, Some (NetError err))
     | None => interpret_response (StatusCode resp) body result format
     end,
     {| session := session st;
        Debug := Debug st;
        stdout :=
          stdout st ++
            (if Debug st
             then trace_before (AuthToken (session st)) requestURL method payload
                  ++ ["t4g Response:" +:+ body +:+ LF]
             else []);
        wire := wire st ++ [(NewTimeoutClient cTimeout rwTimeout false, req)];
        env := Close lib (Resp_Body resp) e2 |}).
Proof.
  intros Hbuild Htrip Hread.
  unfold makeRequest, trace_before. unfold_op.
  destruct (nonempty (AuthToken (session st))) eqn:Htoken;
    destruct (Debug st) eqn:Hdebug; destruct payload as [p|]; cbn;
    rewrite ?Hbuild, ?Htoken; cbn; rewrite Htrip; cbn; rewrite Hread; cbn;
    destruct readBodyError as [err|]; cbn;
    rewrite ?Hdebug, ?app_nil_r, <- ?app_assoc; reflexivity.
Qed.

(** X1. When [http.NewRequest] rejects the method or the URL,
    [makeRequest] returns that error and never reaches the network: no
    request goes on the wire, the remote side is not touched, and the
    target and the session stay as they were. *)
Theorem makeRequest_rejected_sends_nothing {T : Type} `{!Decodable lib T}
    (requestURL method : string) (payload : option string) (result : Target T)
    (headers : list (string * string)) (cTimeout rwTimeout : Duration)
    (format : string) (st : State lib) (httpErr : net_error lib) :
  NewRequest_check lib (TrimSpace lib method) (TrimSpace lib requestURL)
    = Some httpErr ->
  let final :=
    makeRequest (pkg := pkg) requestURL method payload result headers
      cTimeout rwTimeout format st in
  fst final = Returns (result, Some (NetError httpErr)) /\
  wire (snd final) = wire st /\
  env (snd final) = env st /\
  session (snd final) = session st.
Proof.
  intros Hcheck.
  pose proof (build_request_rejected (AuthToken (session st)) requestURL method
                payload headers httpErr Hcheck) as Hbuild.
  unfold makeRequest. unfold_op.
  destruct (Debug st); destruct payload as [p|]; cbn; rewrite Hbuild; cbn;
    repeat split.
Qed.

(** X2. The body of a response is closed exactly when there is a
    response: if the transport fails the remote side is left as the
    round trip left it, and if it answers the body is closed after the
    reading, whatever the status, the outcome of the reading and the
    outcome of the decoding are, a panic included. *)
Theorem makeRequest_closes_body {T : Type} `{!Decodable lib T}
    (requestURL method : string) (payload : option string) (result : Target T)
    (headers : list (string * string)) (cTimeout rwTimeout : Duration)
    (format : string) (st : State lib) (req : Request) :
  build_request lib (AuthToken (session st)) requestURL method payload headers
    = inr req ->
  env (snd (makeRequest (pkg := pkg) requestURL method payload result headers
              cTimeout rwTimeout format st))
  = match RoundTrip lib (NewTimeoutClient cTimeout rwTimeout false) req (env st) with
    | (inl _, e1) => e1
    | (inr resp, e1) =>
        Close lib (Resp_Body resp) (snd (ReadAll lib (Resp_Body resp) e1))
    end.
Proof.
  intros Hbuild.
  destruct (RoundTrip lib _ req (env st)) as [[httpErr|resp] e1] eqn:Htrip.
  - unfold makeRequest. unfold_op.
    destruct (nonempty (AuthToken (session st))) eqn:Htoken;
      destruct (Debug st); destruct payload as [p|]; cbn;
      rewrite ?Hbuild, ?Htoken; cbn; rewrite Htrip; reflexivity.
  - destruct (ReadAll lib (Resp_Body resp) e1) as [[body readBodyError] e2] eqn:Hread.
    now rewrite (makeRequest_run _ _ _ _ _ _ _ _ _ _ _ _ _ _ _ Hbuild Htrip Hread).
Qed.

(** X3. An error of the reading of the body goes before the status: a
    response whose body cannot be read to its end makes [makeRequest]
    return the error of the reading, also when the status is 404 or 200,
    and nothing is decoded. *)
Theorem makeRequest_read_error_first {T : Type} `{!Decodable lib T}
    (requestURL method : string) (payload : option string) (result : Target T)
    (headers : list (string * string)) (cTimeout rwTimeout : Duration)
    (format : string) (st : State lib) (req : Request)
    (resp : Response (Stream lib)) (e1 e2 : Env lib)
    (partial : string) (readBodyError : net_error lib) :
  build_request lib (AuthToken (session st)) requestURL method payload headers
    = inr req ->
  RoundTrip lib (NewTimeoutClient cTimeout rwTimeout false) req (env st)
    = (inr resp, e1) ->
  ReadAll lib (Resp_Body resp) e1 = ((partial, Some readBodyError), e2) ->
  fst (makeRequest (pkg := pkg) requestURL method payload result headers
         cTimeout rwTimeout format st)
  = Returns (result, Some (NetError readBodyError)).
Proof.
  intros Hbuild Htrip Hread.
  now rewrite (makeRequest_run _ _ _ _ _ _ _ _ _ _ _ _ _ _ _ Hbuild Htrip Hread).
Qed.

(** X4. [makeRequest] returns without error exactly when its request was
    answered with a status below 300, the body was read, and the decoding
    of the body into the target gave no error; the target it leaves is
    the one the decoding gives. *)
Theorem makeRequest_succeeds_iff {T : Type} `{!Decodable lib T}
    (requestURL method : string) (payload : option string) (result after : Target T)
    (headers : list (string * string)) (cTimeout rwTimeout : Duration)
    (format : string) (st : State lib) :
  fst (makeRequest (pkg := pkg) requestURL method payload result headers
         cTimeout rwTimeout format st)
  = Returns (after, None)
  <->
  exists req code body,
    build_request lib (AuthToken (session st)) requestURL method payload headers
      = inr req /\
    answered st (NewTimeoutClient cTimeout rwTimeout false) req code body /\
    code < 300 /\
    decode_result (pkg := pkg) body result format = Returns (after, None).
Proof.
  split.
  - intros Hok.
    destruct (makeRequest_inv (pkg := pkg) requestURL method payload result headers
                cTimeout rwTimeout format st)
      as [[httpErr Hend]|(req & code & body & Hbuild & Hanswer & Hend)];
      rewrite Hok in Hend; [discriminate|].
    exists req, code, body. split; [exact Hbuild|]. split; [exact Hanswer|].
    unfold interpret_response in Hend.
    destruct (Z.eqb_spec code 404); [discriminate|].
    destruct (Z.leb_spec 300 code).
    { destruct (xml_Unmarshal body _) as [tErrorResponse [err|]]; discriminate. }
    split; [assumption|]. now symmetry.
  - intros (req & code & body & Hbuild & Hanswer & Hcode & Hdecode).
    rewrite (makeRequest_answered _ _ _ _ _ _ _ _ _ _ _ _ Hbuild Hanswer).
    unfold interpret_response.
    destruct (Z.eqb_spec code 404); [lia|].
    destruct (Z.leb_spec 300 code); [lia|].
    exact Hdecode.
Qed.

(** X5. With [Debug] off, [makeRequest] writes nothing to the standard
    output, on any path. *)
Theorem makeRequest_silent_without_Debug {T : Type} `{!Decodable lib T}
    (requestURL method : string) (payload : option string) (result : Target T)
    (headers : list (string * string)) (cTimeout rwTimeout : Duration)
    (format : string) (st : State lib) :
  Debug st = false ->
  stdout (snd (makeRequest (pkg := pkg) requestURL method payload result headers
                 cTimeout rwTimeout format st))
  = stdout st.
Proof.
  intros Hdebug.
  unfold makeRequest. unfold_op. rewrite Hdebug. cbn.
  destruct (build_request lib _ _ _ _ _) as [httpErr|req]; [reflexivity|].
  cbn.
  destruct (RoundTrip lib _ req (env st)) as [[httpErr|resp] e1]; [reflexivity|].
  cbn.
  destruct (ReadAll lib (Resp_Body resp) e1) as [[body [readErr|]] e2];
    reflexivity.
Qed.

(** X6. With [Debug] on, a call that is answered prints, in this order:
    method and URL; the payload unless it is nil; the auth header with
    the token of the session in clear, when there is a token; and the
    body of the response as far as it was read, also when the reading
    failed. *)
Theorem makeRequest_Debug_trace {T : Type} `{!Decodable lib T}
    (requestURL method : string) (payload : option string) (result : Target T)
    (headers : list (string * string)) (cTimeout rwTimeout : Duration)
    (format : string) (st : State lib) (req : Request)
    (resp : Response (Stream lib)) (e1 e2 : Env lib)
    (body : string) (readBodyError : option (net_error lib)) :
  Debug st = true ->
  build_request lib (AuthToken (session st)) requestURL method payload headers
    = inr req ->
  RoundTrip lib (NewTimeoutClient cTimeout rwTimeout false) req (env st)
    = (inr resp, e1) ->
  ReadAll lib (Resp_Body resp) e1 = ((body, readBodyError), e2) ->
  stdout (snd (makeRequest (pkg := pkg) requestURL method payload result headers
                 cTimeout rwTimeout format st))
  = stdout st
    ++ trace_before (AuthToken (session st)) requestURL method payload
    ++ ["t4g Response:" +:+ body +:+ LF].
Proof.
  intros Hdebug Hbuild Htrip Hread.
  rewrite (makeRequest_run _ _ _ _ _ _ _ _ _ _ _ _ _ _ _ Hbuild Htrip Hread).
  cbn. now rewrite Hdebug.
Qed.

End Transport.

(** ** What every operation keeps *)

Section Safety.

Context {lib : GoLib} {pkg : Package lib}.


(** A panic of [makeRequest] comes from the assertion on the target of
    a csv response. *)
Lemma makeRequest_panics_inv {T : Type} `{!Decodable lib T}
    (requestURL method : string) (payload : option string) (result : Target T)
    (headers : list (string * string)) (cTimeout rwTimeout : Duration)
    (format : string) (st : State lib) :
  fst (makeRequest (pkg := pkg) requestURL method payload result headers
         cTimeout rwTimeout format st)
  = Panics ->
  format = "csv" /\
  (result = nil_pointer \/
   exists v, result = pointer v /\ assert_csv_Reader (T := T) = None) /\
  exists req code body,
    build_request lib (AuthToken (session st)) requestURL method payload headers
      = inr req /\
    answered st (NewTimeoutClient cTimeout rwTimeout false) req code body /\
    code < 300.
Proof.
  intros Hpanic.
  destruct (makeRequest_inv (pkg := pkg) requestURL method payload result headers
              cTimeout rwTimeout format st)
    as [[httpErr Hend]|(req & code & body & Hbuild & Hanswer & Hend)];
    rewrite Hpanic in Hend; [discriminate|].
  unfold interpret_response, decode_result in Hend.
  destruct (Z.eqb_spec code 404); [discriminate|].
  destruct (Z.leb_spec 300 code).
  { destruct (xml_Unmarshal body _) as [tErrorResponse [err|]]; discriminate. }
  assert (Hsent : exists req code body,
            build_request lib (AuthToken (session st)) requestURL method
              payload headers = inr req /\
            answered st (NewTimeoutClient cTimeout rwTimeout false) req code body /\
            code < 300)
    by (exists req, code, body; auto).
  destruct result as [| |v]; [discriminate| |].
  - destruct (String.eqb_spec format "csv"); [auto|].
    destruct (xml_Skip lib body); discriminate.
  - destruct (String.eqb_spec format "csv").
    + destruct (assert_csv_Reader (T := T)) eqn:Hassert; [discriminate|].
      split; [assumption|]. split; [|assumption].
      right. now exists v.
    + destruct (xml_Unmarshal body v) as [v' [err|]]; discriminate.
Qed.

(** X8. [makeRequest] panics in one situation only: the format is csv,
    the response has a status below 300 and a body that was read, and
    the target is neither the nil interface nor a pointer to a
    [csv.Reader] (it holds a nil pointer, or a pointer to another
    type). *)
Theorem makeRequest_panics_iff {T : Type} `{!Decodable lib T}
    (requestURL method : string) (payload : option string) (result : Target T)
    (headers : list (string * string)) (cTimeout rwTimeout : Duration)
    (format : string) (st : State lib) :
  fst (makeRequest (pkg := pkg) requestURL method payload result headers
         cTimeout rwTimeout format st)
  = Panics
  <->
  format = "csv" /\
  (result = nil_pointer \/
   exists v, result = pointer v /\ assert_csv_Reader (T := T) = None) /\
  exists req code body,
    build_request lib (AuthToken (session st)) requestURL method payload headers
      = inr req /\
    answered st (NewTimeoutClient cTimeout rwTimeout false) req code body /\
    code < 300.
Proof.
  split; [apply makeRequest_panics_inv|].
  intros (-> & Hmisuse & req & code & body & Hbuild & Hanswer & Hcode).
  rewrite (makeRequest_answered _ _ _ _ _ _ _ _ _ _ _ _ Hbuild Hanswer).
  unfold interpret_response, decode_result.
  destruct (Z.eqb_spec code 404); [lia|].
  destruct (Z.leb_spec 300 code); [lia|].
  destruct Hmisuse as [->|(v & -> & Hassert)]; cbn; [reflexivity|].
  now rewrite Hassert.
Qed.

(** X19. The header of the request [makeRequest] sends holds, under
    every name, exactly these values in this order: the Content-Length
    when there is a payload, then the values of the caller's headers in
    the order the loop visits them, then the token when the session has
    one; nothing else is attached, and no entry of the caller is
    dropped. *)
Theorem makeRequest_headers {T : Type} `{!Decodable lib T}
    (requestURL method : string) (payload : option string) (result : Target T)
    (headers : list (string * string)) (cTimeout rwTimeout : Duration)
    (format : string) (st : State lib) (client : Client) (req : Request) :
  In (client, req)
    (sent (makeRequest (pkg := pkg) requestURL method payload result headers
             cTimeout rwTimeout format) st) ->
  (forall key,
      Header_Values lib key req
      = under lib key
          (plain_entries payload headers
           ++ (if nonempty (AuthToken (session st))
               then [(auth_header, AuthToken (session st))] else []))) /\
  (forall key value, In (key, value) headers -> In value (Header_Values lib key req)).
Proof.
  rewrite makeRequest_sent.
  destruct (build_request lib _ _ _ _ _) as [httpErr|built] eqn:Hbuild;
    [intros []|].
  intros [Hin|[]]. injection Hin as _ <-.
  assert (Hall : forall key,
            Header_Values lib key built
            = under lib key
                (plain_entries payload headers
                 ++ (if nonempty (AuthToken (session st))
                     then [(auth_header, AuthToken (session st))] else []))).
  { intros key.
    rewrite (build_request_Header_Values _ _ _ _ _ _ key Hbuild), under_app.
    destruct (nonempty (AuthToken (session st))); [reflexivity|].
    unfold under at 3. now rewrite filter_nil. }
  split; [exact Hall|].
  intros key value Hin. rewrite Hall. unfold under, plain_entries.
  apply in_map_iff. exists (key, value). split; [reflexivity|].
  apply list_elem_of_In, list_elem_of_filter. split; [reflexivity|].
  apply list_elem_of_In, in_or_app. left. apply in_or_app. now right.
Qed.

Lemma always_returns_ret {A : Type} (a : A) : always_returns (ret (lib := lib) a).
Proof. intros st. now exists a. Qed.

Lemma always_returns_get_session : always_returns (get_session (lib := lib)).
Proof. intros st. now exists (session st). Qed.

Lemma always_returns_bind {A B : Type} (m : Op lib A) (k : A -> Op lib B) :
  always_returns m -> (forall a, always_returns (k a)) -> always_returns (bind m k).
Proof.
  intros Hm Hk st. unfold bind.
  destruct (Hm st) as [a Ha]. destruct (m st) as [[a'|] s1]; cbn in Ha.
  - apply Hk.
  - discriminate.
Qed.

Lemma always_returns_makeRequest {T : Type} `{!Decodable lib T}
    (requestURL method : string) (payload : option string) (result : Target T)
    (headers : list (string * string)) (cTimeout rwTimeout : Duration)
    (format : string) :
  format <> "csv" \/ result = nil_interface \/
  (exists v store, result = pointer v /\ assert_csv_Reader (T := T) = Some store) ->
  always_returns (makeRequest (pkg := pkg) requestURL method payload result headers
                    cTimeout rwTimeout format).
Proof.
  intros Hfit st.
  destruct (fst (makeRequest (pkg := pkg) requestURL method payload result headers
                   cTimeout rwTimeout format st)) as [a|] eqn:Hrun;
    [now exists a|].
  apply makeRequest_panics_inv in Hrun.
  destruct Hrun as (Hcsv & Hmisuse & _).
  destruct Hfit as [Hother|[->|(v & store & -> & Hstore)]]; [contradiction| |].
  - destruct Hmisuse as [|(v & ? & _)]; discriminate.
  - destruct Hmisuse as [|(v' & _ & Hnone)]; [discriminate|congruence].
Qed.

Lemma keeps_session_ret {A : Type} (a : A) : keeps_session (ret (lib := lib) a).
Proof. intros st. now split. Qed.

Lemma keeps_session_get_session : keeps_session (get_session (lib := lib)).
Proof. intros st. now split. Qed.

Lemma keeps_session_bind {A B : Type} (m : Op lib A) (k : A -> Op lib B) :
  keeps_session m -> (forall a, keeps_session (k a)) -> keeps_session (bind m k).
Proof.
  intros Hm Hk st. unfold bind.
  specialize (Hm st). destruct (m st) as [[a|] s1]; cbn in Hm; [|exact Hm].
  destruct (Hk a s1) as [Hsession Hdebug]. destruct Hm as [<- <-]. now split.
Qed.

Lemma keeps_session_makeRequest {T : Type} `{!Decodable lib T}
    (requestURL method : string) (payload : option string) (result : Target T)
    (headers : list (string * string)) (cTimeout rwTimeout : Duration)
    (format : string) :
  keeps_session (makeRequest (pkg := pkg) requestURL method payload result headers
                   cTimeout rwTimeout format).
Proof.
  intros st.
  destruct (makeRequest_frame (pkg := pkg) requestURL method payload result headers
              cTimeout rwTimeout format st) as (Hsession & Hdebug & _).
  now split.
Qed.

Ltac unfold_operations :=
  unfold GetSiteID, QuerySiteByName, QuerySiteByContentURL, querySiteByKey,
    QuerySite, querySite, GetProjectByName, GetProjectByID, QueryProjects,
    Signin, Signout, ServerInfo, QuerySites, QueryUserOnSite, QueryViews,
    QueryWorkbookViews, QueryViewData, QueryWorkbooks, QueryDatasources,
    CreateProject, PublishTDS, publishDatasource, DeleteDatasource,
    DeleteProject, DeleteSite, DeleteSiteByName, DeleteSiteByContentURL,
    deleteSiteByKey, delete.

Ltac keeping :=
  repeat first
    [ apply keeps_session_ret
    | apply keeps_session_get_session
    | apply keeps_session_makeRequest
    | match goal with
      | |- keeps_session (bind _ _) => apply keeps_session_bind; [|intros ?]
      end
    | progress cbv beta zeta
    | match goal with
      | |- keeps_session (match ?x with _ => _ end) => destruct x
      end ].

(** [Signin] leaves the session as it is or puts a token into it. *)
Lemma Signin_session
    (username password contentURL userIDToImpersonate : string) (st : State lib) :
  let final :=
    snd (Signin (pkg := pkg) username password contentURL userIDToImpersonate st) in
  (session final = session st \/
   exists token, session final = set_AuthToken token (session st)) /\
  Debug final = Debug st.
Proof.
  cbv zeta.
  destruct (Signin (pkg := pkg) username password contentURL userIDToImpersonate st)
    as [out final] eqn:Hrun.
  cbn [snd]. revert Hrun.
  unfold Signin. unfold bind at 1. unfold get_session at 1.
  cbv beta iota zeta.
  destruct (SigninRequest_XML pkg _) as [xerr|payload].
  { intros Hrun. injection Hrun as _ <-. split; [left|]; reflexivity. }
  match goal with
  | |- context [makeRequest ?u ?m ?p ?r ?h ?c ?w ?f] =>
      destruct (makeRequest_frame (pkg := pkg) u m p r h c w f st)
        as (Hsession & Hdebug & _);
      unfold bind;
      destruct (makeRequest (pkg := pkg) u m p r h c w f st)
        as [[[res [err|]]|] st1]
  end; cbn in Hsession, Hdebug |- *; intros Hrun; injection Hrun as _ <-;
    cbn; rewrite Hsession, ?Hdebug.
  - split; [left|]; reflexivity.
  - split; [right; eexists|]; reflexivity.
  - split; [left|]; reflexivity.
Qed.

(** X10. No operation but [Signin] changes the session, and none changes
    [Debug]; [Signin] changes no field of the session but [AuthToken]. *)
Theorem operations_keep_session :
  (forall username password contentURL userIDToImpersonate st,
      let final :=
        snd (Signin (pkg := pkg) username password contentURL
               userIDToImpersonate st) in
      Server (session final) = Server (session st) /\
      Version (session final) = Version (session st) /\
      Boundary (session final) = Boundary (session st) /\
      OmitDefaultSiteName (session final) = OmitDefaultSiteName (session st) /\
      DefaultSiteName (session final) = DefaultSiteName (session st) /\
      Debug final = Debug st)
  /\ keeps_session (Signout (pkg := pkg))
  /\ keeps_session (ServerInfo (pkg := pkg))
  /\ keeps_session (QuerySites (pkg := pkg))
  /\ (forall siteID includeStorage,
        keeps_session (QuerySite (pkg := pkg) siteID includeStorage))
  /\ (forall name includeStorage,
        keeps_session (QuerySiteByName (pkg := pkg) name includeStorage))
  /\ (forall contentURL includeStorage,
        keeps_session (QuerySiteByContentURL (pkg := pkg) contentURL includeStorage))
  /\ (forall siteID userID,
        keeps_session (QueryUserOnSite (pkg := pkg) siteID userID))
  /\ (forall siteID, keeps_session (QueryProjects (pkg := pkg) siteID))
  /\ (forall siteID, keeps_session (QueryViews (pkg := pkg) siteID))
  /\ (forall siteID workbookID values,
        keeps_session (QueryWorkbookViews (pkg := pkg) siteID workbookID values))
  /\ (forall siteID viewID,
        keeps_session (QueryViewData (pkg := pkg) siteID viewID))
  /\ (forall siteID values,
        keeps_session (QueryWorkbooks (pkg := pkg) siteID values))
  /\ (forall siteID name,
        keeps_session (GetProjectByName (pkg := pkg) siteID name))
  /\ (forall siteID ID, keeps_session (GetProjectByID (pkg := pkg) siteID ID))
  /\ (forall siteID, keeps_session (QueryDatasources (pkg := pkg) siteID))
  /\ (forall siteName, keeps_session (GetSiteID (pkg := pkg) siteName))
  /\ (forall siteID project,
        keeps_session (CreateProject (pkg := pkg) siteID project))
  /\ (forall siteID tdsMetadata fullTds overwrite,
        keeps_session (PublishTDS (pkg := pkg) siteID tdsMetadata fullTds overwrite))
  /\ (forall siteID datasourceID,
        keeps_session (DeleteDatasource (pkg := pkg) siteID datasourceID))
  /\ (forall siteID projectID,
        keeps_session (DeleteProject (pkg := pkg) siteID projectID))
  /\ (forall siteID, keeps_session (DeleteSite (pkg := pkg) siteID))
  /\ (forall name, keeps_session (DeleteSiteByName (pkg := pkg) name))
  /\ (forall contentURL,
        keeps_session (DeleteSiteByContentURL (pkg := pkg) contentURL)).
Proof.
  split.
  - intros username password contentURL userIDToImpersonate st final.
    destruct (Signin_session username password contentURL userIDToImpersonate st)
      as [[Hsame|[token Hput]] Hdebug]; fold final in Hdebug.
    + fold final in Hsame. rewrite Hsame. repeat split. exact Hdebug.
    + fold final in Hput. rewrite Hput. repeat split. exact Hdebug.
  - repeat match goal with |- _ /\ _ => split end;
      intros; unfold_operations; keeping.
Qed.

End Safety.

(** ** Operations, end to end *)

Section Workflows.

Context {lib : GoLib} {pkg : Package lib}.

(** The value of an operation that ends with a pure step. *)
Lemma fst_bind_pure {A B : Type} (m : Op lib A) (k : A -> Op lib B) (f : A -> B)
    (st : State lib) :
  (forall a s, k a s = (Returns (f a), s)) ->
  fst (bind m k st)
  = match fst (m st) with
    | Returns a => Returns (f a)
    | Panics => Panics
    end.
Proof.
  intros Hpure. unfold bind.
  destruct (m st) as [[a|] s1]; cbn; [now rewrite Hpure|reflexivity].
Qed.

Lemma bind_get_session {A : Type} (k : API -> Op lib A) (st : State lib) :
  bind get_session k st = k (session st) st.
Proof. reflexivity. Qed.

(** X11. When the query of the projects succeeds, [GetProjectByID]
    returns the first project of the list whose [ID] is the given one,
    without error; when no project has that ID, it returns the zero
    [Project] and an error whose message holds the ID as given. *)
Theorem GetProjectByID_first_match (siteID ID : string)
    (st st' : State lib) (projects : list Project) :
  QueryProjects (pkg := pkg) siteID st = (Returns (projects, None), st') ->
  (forall before project after,
      projects = before ++ project :: after ->
      Project_ID project = ID ->
      (forall other, In other before -> Project_ID other <> ID) ->
      GetProjectByID (pkg := pkg) siteID ID st
      = (Returns (project, None), st'))
  /\
  ((forall other, In other projects -> Project_ID other <> ID) ->
   GetProjectByID (pkg := pkg) siteID ID st
   = (Returns (zero, Some (Errorf ("Project with ID '" +:+ ID +:+ "' Not Found"))),
      st') /\
   contains ID ("Project with ID '" +:+ ID +:+ "' Not Found")).
Proof.
  intros Hquery. unfold GetProjectByID, bind. rewrite Hquery.
  split.
  - intros before project after -> HID Hbefore.
    rewrite find_first; [reflexivity| |].
    + now apply String.eqb_eq.
    + intros other Hin. apply String.eqb_neq. now apply Hbefore.
  - intros Hnone.
    rewrite find_nowhere.
    + split; [reflexivity|].
      exists "Project with ID '", "' Not Found". reflexivity.
    + intros other Hin. apply String.eqb_neq. now apply Hnone.
Qed.

(** X12. When the server answers the query of the projects with a status
    of 300 or more, [QueryProjects] returns the nil list with the error,
    and [GetProjectByName] and [GetProjectByID] return the zero
    [Project] with that same error and do not look for the project; for a
    404 the error is the sentinel [ErrDoesNotExist], not the message of a
    project that was not found. *)
Theorem project_lookup_passes_query_error (siteID name ID : string)
    (st : State lib) (req : Request) (code : Z) (body : string) :
  build_request lib (AuthToken (session st))
    (versioned ("/sites/" +:+ siteID +:+ "/projects") (session st)) GET None []
    = inr req ->
  answered st (NewTimeoutClient (connectTimeOut pkg) (readWriteTimeout pkg) false)
    req code body ->
  300 <= code ->
  exists err,
    fst (QueryProjects (pkg := pkg) siteID st) = Returns ([], Some err) /\
    fst (GetProjectByName (pkg := pkg) siteID name st) = Returns (zero, Some err) /\
    fst (GetProjectByID (pkg := pkg) siteID ID st) = Returns (zero, Some err) /\
    (code = 404 -> err = ErrDoesNotExist).
Proof.
  intros Hbuild Hanswer Hcode.
  assert (Hquery : exists err,
            fst (QueryProjects (pkg := pkg) siteID st) = Returns ([], Some err) /\
            (code = 404 -> err = ErrDoesNotExist)).
  { unfold QueryProjects. unfold bind at 1. unfold get_session at 1.
    cbv beta iota zeta.
    rewrite (fst_bind_pure _ _
               (fun x => (Response_Projects (pointee zero (fst x)), snd x)))
      by (intros [result err] s; reflexivity).
    unfold versioned in Hbuild.
    rewrite (makeRequest_answered _ _ _ _ _ _ _ _ _ _ _ _ Hbuild Hanswer).
    unfold interpret_response.
    destruct (Z.eqb_spec code 404) as [->|Hne].
    { eexists. split; [reflexivity|]. reflexivity. }
    destruct (Z.leb_spec 300 code); [|lia].
    destruct (xml_Unmarshal body _) as [tErrorResponse [err|]];
      eexists; (split; [reflexivity|]); contradiction. }
  destruct Hquery as (err & Hquery & H404).
  exists err. split; [exact Hquery|].
  unfold GetProjectByName, GetProjectByID, bind.
  destruct (QueryProjects (pkg := pkg) siteID st) as [[[projects qerr]|] st'];
    cbn in Hquery; [|discriminate].
  injection Hquery as -> ->.
  split; [reflexivity|]. split; [reflexivity|exact H404].
Qed.

(** X13. [QueryViewData] sends its request through a client with
    timeouts of 60 seconds, and on a status below 300 it returns the
    reader that [csv.NewReader] makes of the body as it is, without
    error, whatever the body holds. *)
Theorem QueryViewData_reads_csv (siteID viewID : string) (st : State lib)
    (store : csv_Reader lib -> csv_Reader lib)
    (req : Request) (code : Z) (body : string) :
  assert_csv_Reader (Decodable := decode_csv_Reader) = Some store ->
  build_request lib (AuthToken (session st))
    (versioned ("/sites/" +:+ siteID +:+ "/views/" +:+ viewID +:+ "/data")
       (session st)) GET None []
    = inr req ->
  answered st (NewTimeoutClient (60 * Second) (60 * Second) false) req code body ->
  code < 300 ->
  fst (QueryViewData (pkg := pkg) siteID viewID st)
  = Returns (store (csv_NewReader lib body), None) /\
  sent (QueryViewData (pkg := pkg) siteID viewID) st
  = [(NewTimeoutClient (60 * Second) (60 * Second) false, req)].
Proof.
  intros Hstore Hbuild Hanswer Hcode. unfold versioned in Hbuild.
  split.
  - unfold QueryViewData. unfold bind at 1. unfold get_session at 1.
    cbv beta iota zeta.
    rewrite (fst_bind_pure _ _
               (fun x => (pointee (csv_Reader_zero lib) (fst x), snd x)))
      by (intros [result err] s; reflexivity).
    rewrite (makeRequest_answered _ _ _ _ _ _ _ _ _ _ _ _ Hbuild Hanswer).
    unfold interpret_response, decode_result.
    destruct (Z.eqb_spec code 404); [lia|].
    destruct (Z.leb_spec 300 code); [lia|].
    cbn. now rewrite Hstore.
  - unfold QueryViewData. rewrite sent_get_session. cbv beta zeta.
    rewrite sent_bind_quiet by (intros [? ?] ?; reflexivity).
    rewrite makeRequest_sent. now rewrite Hbuild.
Qed.

Lemma CreateProject_unfold (siteID : string) (project : Project) (st : State lib) :
  CreateProject (pkg := pkg) siteID project st
  = match CreateProjectRequest_XML pkg {| CreateProject_Request := project |} with
    | inl err => (Returns (None, Some (XMLError err)), st)
    | inr xmlRep =>
        bind
          (makeRequest (pkg := pkg)
             (versioned ("/sites/" +:+ siteID +:+ "/projects") (session st)) POST
             (Some xmlRep) (pointer (zero : CreateProjectResponse))
             [(content_type_header, application_xml_content_type)]
             (connectTimeOut pkg) (readWriteTimeout pkg) "")
          (fun x : Target CreateProjectResponse * option (error pkg) =>
             let '(result, err) := x in
             ret (Some (Created_Project (pointee zero result)), err))
          st
    end.
Proof.
  unfold CreateProject, versioned. unfold bind at 1. unfold get_session.
  cbv beta iota zeta.
  destruct (CreateProjectRequest_XML pkg _); reflexivity.
Qed.

(** X14. [CreateProject] returns the nil pointer only when the project
    cannot be serialized, and then it sends nothing.  Otherwise it
    returns a pointer on every path: to the project decoded from the
    body when the status is below 300, and to the zero [Project],
    together with the error, when the status is 300 or more. *)
Theorem CreateProject_pointer (siteID : string) (project : Project) (st : State lib) :
  match CreateProjectRequest_XML pkg {| CreateProject_Request := project |} with
  | inl err =>
      CreateProject (pkg := pkg) siteID project st
      = (Returns (None, Some (XMLError err)), st)
  | inr xmlRep =>
      (exists created err,
          fst (CreateProject (pkg := pkg) siteID project st)
          = Returns (Some created, err)) /\
      forall req code body,
        build_request lib (AuthToken (session st))
          (versioned ("/sites/" +:+ siteID +:+ "/projects") (session st)) POST
          (Some xmlRep) [(content_type_header, application_xml_content_type)]
          = inr req ->
        answered st
          (NewTimeoutClient (connectTimeOut pkg) (readWriteTimeout pkg) false)
          req code body ->
        (code < 300 ->
         fst (CreateProject (pkg := pkg) siteID project st)
         = Returns
             (Some (Created_Project
                      (fst (xml_Unmarshal body (zero : CreateProjectResponse)))),
              option_map XMLError
                (snd (xml_Unmarshal body (zero : CreateProjectResponse))))) /\
        (300 <= code ->
         exists err,
           fst (CreateProject (pkg := pkg) siteID project st)
           = Returns (Some zero, Some err))
  end.
Proof.
  rewrite !CreateProject_unfold.
  destruct (CreateProjectRequest_XML pkg _) as [xerr|xmlRep]; [reflexivity|].
  rewrite !(fst_bind_pure _ _
              (fun x : Target CreateProjectResponse * option (error pkg) =>
                 (Some (Created_Project (pointee zero (fst x))), snd x)))
    by (intros [result err] s; reflexivity).
  split.
  - match goal with
    | |- context [makeRequest ?u ?m ?p ?r ?h ?c ?w ?f st] =>
        assert (Hreturns : always_returns (makeRequest (pkg := pkg) u m p r h c w f))
          by (apply always_returns_makeRequest; left; discriminate)
    end.
    destruct (Hreturns st) as [[result err] Hrun]. rewrite Hrun.
    now exists (Created_Project (pointee zero result)), err.
  - intros req code body Hbuild Hanswer.
    rewrite (makeRequest_answered _ _ _ _ _ _ _ _ _ _ _ _ Hbuild Hanswer).
    unfold interpret_response, decode_result. split.
    + intros Hcode.
      destruct (Z.eqb_spec code 404); [lia|].
      destruct (Z.leb_spec 300 code); [lia|].
      cbn. destruct (xml_Unmarshal body zero) as [v' [err|]]; reflexivity.
    + intros Hcode.
      destruct (Z.eqb_spec code 404); [eexists; reflexivity|].
      destruct (Z.leb_spec 300 code); [|lia].
      destruct (xml_Unmarshal body _) as [tErrorResponse [err|]];
        eexists; reflexivity.
Qed.

(** X15. The request of [publishDatasource], for every boundary, name,
    content and datasource type: a POST to the datasources of the site
    with the type and the overwrite flag in the query, whose body is the
    two-part multipart text with the serialized metadata and the content
    as given.  The file name of the second part is the name of the
    datasource followed by .tds, whatever the datasource type is. *)
Theorem publishDatasource_request (siteID : string) (tdsMetadata : Datasource)
    (datasource datasourceType : string) (overwrite : bool) (st : State lib)
    (client : Client) (req : Request) :
  In (client, req)
    (sent (publishDatasource (pkg := pkg) siteID tdsMetadata datasource
             datasourceType overwrite) st) ->
  exists xml,
    DatasourceCreateRequest_XML pkg {| DatasourceCreate_Request := tdsMetadata |}
      = inr xml /\
    Method req = TrimSpace lib POST /\
    URL req
    = TrimSpace lib
        (versioned ("/sites/" +:+ siteID +:+ "/datasources?datasourceType="
                    +:+ datasourceType +:+ "&overwrite=" +:+ fmt_bool overwrite)
           (session st)) /\
    Body req
    = Some (multipart (Boundary (session st)) xml (Datasource_Name tdsMetadata)
              datasource).
Proof.
  unfold publishDatasource. rewrite sent_get_session. cbv beta zeta.
  destruct (DatasourceCreateRequest_XML pkg _) as [xerr|xml].
  { rewrite sent_ret. intros []. }
  rewrite sent_bind_quiet, makeRequest_sent;
    [|intros [result err] s; reflexivity].
  destruct (build_request lib _ _ _ _ _) as [httpErr|built] eqn:Hbuild;
    [intros []|].
  intros [Hin|[]]. injection Hin as _ <-.
  destruct (build_request_line _ _ _ _ _ _ Hbuild) as (Hmethod & Hurl & Hbody).
  exists xml. split; [reflexivity|]. split; [exact Hmethod|].
  split; [exact Hurl|].
  rewrite Hbody.
  match goal with
  | |- (if ?nonempty then _ else _) = _ =>
      replace nonempty with true by reflexivity
  end.
  f_equal. unfold multipart. rewrite !append_assoc. reflexivity.
Qed.

(** X16. The credentials that [Signin] serializes carry the name and the
    password as given and no token, and name a user to impersonate
    exactly when [userIDToImpersonate] is not empty.  When they cannot be
    serialized, [Signin] returns that error and sends nothing.
    Otherwise [Signin] sends exactly one request, a POST to the sign-in
    URL of the session with the serialization as its body, unless
    [http.NewRequest] rejects that URL, and then it sends nothing. *)
Theorem Signin_credentials
    (username password contentURL userIDToImpersonate : string) (st : State lib) :
  exists credentials,
    Cred_Name credentials = username /\
    Password credentials = password /\
    Token credentials = "" /\
    (userIDToImpersonate = "" -> Impersonate credentials = None) /\
    (userIDToImpersonate <> "" ->
     Impersonate credentials = Some {| User_ID := userIDToImpersonate |}) /\
    match SigninRequest_XML pkg {| Signin_Request := credentials |} with
    | inl err =>
        Signin (pkg := pkg) username password contentURL userIDToImpersonate st
        = (Returns (Some (XMLError err)), st) /\
        sent (Signin (pkg := pkg) username password contentURL userIDToImpersonate) st
        = []
    | inr payload =>
        match NewRequest_check lib (TrimSpace lib POST)
                (TrimSpace lib (versioned "/auth/signin" (session st))) with
        | None =>
            exists client req,
              sent (Signin (pkg := pkg) username password contentURL
                      userIDToImpersonate) st
              = [(client, req)] /\
              Method req = TrimSpace lib POST /\
              URL req = TrimSpace lib (versioned "/auth/signin" (session st)) /\
              Body req = if nonempty payload then Some payload else None
        | Some _ =>
            sent (Signin (pkg := pkg) username password contentURL
                    userIDToImpersonate) st
            = []
        end
    end.
Proof.
  unfold Signin. rewrite !sent_get_session.
  unfold bind at 1. unfold get_session at 1. cbv beta iota zeta.
  set (siteName :=
         if OmitDefaultSiteName (session st)
         then if String.eqb contentURL (DefaultSiteName (session st))
              then "" else contentURL
         else contentURL).
  exists {| Cred_Name := username; Password := password; Token := "";
            Impersonate :=
              if nonempty userIDToImpersonate
              then Some {| User_ID := userIDToImpersonate |} else None;
            Cred_Site := Some {| Site_ID := ""; ContentUrl := siteName |} |}.
  split; [reflexivity|]. split; [reflexivity|]. split; [reflexivity|].
  split; [now intros ->|].
  split.
  { intros Hid. cbn. destruct userIDToImpersonate; [contradiction|reflexivity]. }
  destruct (SigninRequest_XML pkg _) as [err|payload].
  { split; [reflexivity|apply sent_ret]. }
  rewrite sent_bind_quiet, makeRequest_sent;
    [|intros [result [err|]] s; reflexivity].
  unfold versioned.
  destruct (NewRequest_check lib _ _) as [httpErr|] eqn:Hcheck.
  - now rewrite (build_request_rejected _ _ _ _ _ _ Hcheck).
  - destruct (build_request_accepted (AuthToken (session st)) _ _ (Some payload)
                [(content_type_header, application_xml_content_type)] Hcheck)
      as [req Hbuild].
    rewrite Hbuild.
    destruct (build_request_line _ _ _ _ _ _ Hbuild) as (Hmethod & Hurl & Hbody).
    now exists (NewTimeoutClient (connectTimeOut pkg) (readWriteTimeout pkg) false),
          req.
Qed.

(** X17. After a [Signin] that succeeded, [Signout] sends a POST without
    body to the sign-out URL of the session, with the token that
    [Signin] stored as its only auth header (and none when that token is
    empty), and it leaves the session, token included, as [Signin] left
    it.  (The canonical names of Content-Type and of the auth header are
    supposed to differ.) *)
Theorem Signout_after_Signin
    (username password contentURL userIDToImpersonate : string)
    (st signed : State lib) (client : Client) (req : Request) :
  Signin (pkg := pkg) username password contentURL userIDToImpersonate st
    = (Returns None, signed) ->
  In (client, req) (sent (Signout (pkg := pkg)) signed) ->
  CanonicalMIMEHeaderKey lib content_type_header
    <> CanonicalMIMEHeaderKey lib auth_header ->
  Method req = TrimSpace lib POST /\
  URL req = TrimSpace lib (versioned "/auth/signout" (session st)) /\
  Body req = None /\
  Header_Values lib auth_header req
  = (if nonempty (AuthToken (session signed))
     then [AuthToken (session signed)] else []) /\
  session (snd (Signout (pkg := pkg) signed)) = session signed.
Proof.
  intros Hsignin Hsent Hnames.
  assert (Hsame : versioned "/auth/signout" (session signed)
                  = versioned "/auth/signout" (session st)).
  { pose proof (Signin_session (pkg := pkg) username password contentURL
                  userIDToImpersonate st) as Hsession.
    rewrite Hsignin in Hsession. cbn in Hsession.
    destruct Hsession as [[->|[token ->]] _]; reflexivity. }
  rewrite <- Hsame. clear Hsame Hsignin.
  assert (Hkeeps : keeps_session (Signout (pkg := pkg))).
  { unfold Signout. apply keeps_session_bind; [apply keeps_session_get_session|].
    intros api. cbv beta zeta.
    apply keeps_session_bind; [apply keeps_session_makeRequest|].
    intros [result err]. apply keeps_session_ret. }
  revert Hsent. unfold Signout at 1. rewrite sent_get_session. cbv beta zeta.
  rewrite sent_bind_quiet, makeRequest_sent;
    [|intros [result err] s; reflexivity].
  destruct (build_request lib _ _ _ _ _) as [httpErr|built] eqn:Hbuild;
    [intros []|].
  intros [Hin|[]]. injection Hin as _ <-.
  destruct (build_request_line _ _ _ _ _ _ Hbuild) as (Hmethod & Hurl & Hbody).
  split; [exact Hmethod|]. split; [exact Hurl|]. split; [exact Hbody|].
  split; [|apply Hkeeps].
  rewrite (build_request_Header_Values _ _ _ _ _ _ auth_header Hbuild).
  assert (Hplain : under lib auth_header
                     (plain_entries None
                        [(content_type_header, application_xml_content_type)])
                   = []).
  { unfold plain_entries, under. cbn [len Nat.ltb Nat.leb app].
    rewrite filter_cons, filter_nil. cbn [fst].
    destruct (decide _) as [Heq|_]; [contradiction|reflexivity]. }
  rewrite Hplain. cbn [app].
  destruct (nonempty (AuthToken (session signed))); [|reflexivity].
  unfold under. rewrite filter_cons, filter_nil. cbn [fst].
  destruct (decide _) as [_|Hne]; [reflexivity|contradiction].
Qed.

(** X18. A deletion and a sign-out succeed exactly when the status is
    below 300: once the request is answered and the body read, [delete]
    and [Signout] return no error if and only if the status is below
    300, whatever the body holds; on success the body is not parsed. *)
Theorem delete_and_Signout_succeed_below_300 (st : State lib)
    (req : Request) (code : Z) (body : string) :
  answered st (NewTimeoutClient (connectTimeOut pkg) (readWriteTimeout pkg) false)
    req code body ->
  (forall url,
      build_request lib (AuthToken (session st)) url DELETE None [] = inr req ->
      (fst (delete (pkg := pkg) url st) = Returns None <-> code < 300))
  /\
  (build_request lib (AuthToken (session st))
     (versioned "/auth/signout" (session st)) POST None
     [(content_type_header, application_xml_content_type)] = inr req ->
   (fst (Signout (pkg := pkg) st) = Returns None <-> code < 300)).
Proof.
  intros Hanswer.
  split.
  - intros url Hbuild. unfold delete.
    rewrite (fst_bind_pure _ _ (fun x => snd x))
      by (intros [result err] s; reflexivity).
    rewrite (makeRequest_answered _ _ _ _ _ _ _ _ _ _ _ _ Hbuild Hanswer).
    unfold interpret_response, decode_result.
    destruct (Z.eqb_spec code 404) as [->|Hne]; [split; [discriminate|lia]|].
    destruct (Z.leb_spec 300 code).
    + destruct (xml_Unmarshal body _) as [tErrorResponse [err|]];
        (split; [discriminate|lia]).
    + split; [intros _; assumption|reflexivity].
  - intros Hbuild. unfold Signout, versioned in *.
    unfold bind at 1. unfold get_session at 1. cbv beta iota zeta.
    rewrite (fst_bind_pure _ _ (fun x => snd x))
      by (intros [result err] s; reflexivity).
    rewrite (makeRequest_answered _ _ _ _ _ _ _ _ _ _ _ _ Hbuild Hanswer).
    unfold interpret_response, decode_result.
    destruct (Z.eqb_spec code 404) as [->|Hne]; [split; [discriminate|lia]|].
    destruct (Z.leb_spec 300 code).
    + destruct (xml_Unmarshal body _) as [tErrorResponse [err|]];
        (split; [discriminate|lia]).
    + split; [intros _; assumption|reflexivity].
Qed.

End Workflows.

(** ** Runs in the world with failures *)

Section RoughRuns.

Import Rough.

Lemma makeRequest_rejected_sends_nothing_witness :
  let st := start false api1 [replied 200 "<ok/>" true] in
  let final :=
    makeRequest (pkg := pkg) ":8080/api" GET None
      (pointer (zero : QueryProjectsResponse)) []
      (connectTimeOut pkg) (readWriteTimeout pkg) "" st in
  fst final
  = Returns (pointer (zero : QueryProjectsResponse),
             Some (NetError "missing protocol scheme")) /\
  wire (snd final) = [] /\
  env (snd final) = ([replied 200 "<ok/>" true], 0%nat) /\
  session (snd final) = api1.
Proof.
  exact (makeRequest_rejected_sends_nothing (pkg := pkg) ":8080/api" GET None
           (pointer (zero : QueryProjectsResponse)) []
           (connectTimeOut pkg) (readWriteTimeout pkg) ""
           (start false api1 [replied 200 "<ok/>" true])
           "missing protocol scheme" eq_refl).
Defined.

Lemma makeRequest_closes_body_witness :
  env (snd (makeRequest (pkg := pkg) "https://bi.example/x" GET None
              (pointer (zero : QueryProjectsResponse)) []
              (connectTimeOut pkg) (readWriteTimeout pkg) ""
              (start false api1 [replied 500 "<error/>" true])))
  = ([], 1%nat)
  /\ env (snd (makeRequest (pkg := pkg) "https://bi.example/x" GET None
                 (pointer (zero : QueryProjectsResponse)) []
                 (connectTimeOut pkg) (readWriteTimeout pkg) ""
                 (start false api1 [refused])))
     = ([], 0%nat).
Proof.
  split.
  - exact (makeRequest_closes_body (pkg := pkg) "https://bi.example/x" GET None
             (pointer (zero : QueryProjectsResponse)) []
             (connectTimeOut pkg) (readWriteTimeout pkg) ""
             (start false api1 [replied 500 "<error/>" true])
             (bare GET "https://bi.example/x" "tok-1") eq_refl).
  - exact (makeRequest_closes_body (pkg := pkg) "https://bi.example/x" GET None
             (pointer (zero : QueryProjectsResponse)) []
             (connectTimeOut pkg) (readWriteTimeout pkg) ""
             (start false api1 [refused])
             (bare GET "https://bi.example/x" "tok-1") eq_refl).
Defined.

Lemma makeRequest_read_error_first_witness :
  fst (makeRequest (pkg := pkg) "https://bi.example/x" GET None
         (pointer (zero : QueryProjectsResponse)) []
         (connectTimeOut pkg) (readWriteTimeout pkg) ""
         (start false api1 [replied 404 "<err" false]))
  = Returns (pointer (zero : QueryProjectsResponse),
             Some (NetError "unexpected EOF")).
Proof.
  exact (makeRequest_read_error_first (pkg := pkg) "https://bi.example/x" GET None
           (pointer (zero : QueryProjectsResponse)) []
           (connectTimeOut pkg) (readWriteTimeout pkg) ""
           (start false api1 [replied 404 "<err" false])
           (bare GET "https://bi.example/x" "tok-1")
           {| StatusCode := 404; Resp_Body := ("<err", false) |}
           ([], 0%nat) ([], 0%nat) "<err" "unexpected EOF"
           eq_refl eq_refl eq_refl).
Defined.

Lemma makeRequest_succeeds_iff_witness :
  fst (makeRequest (pkg := pkg) "https://bi.example/x" GET None
         (pointer (zero : QueryProjectsResponse)) []
         (connectTimeOut pkg) (readWriteTimeout pkg) ""
         (start false api1 [replied 200 "<projects/>" true]))
  = Returns (pointer {| Response_Projects := [created] |}, None).
Proof.
  apply (proj2 (makeRequest_succeeds_iff (pkg := pkg) "https://bi.example/x" GET
                  None (pointer (zero : QueryProjectsResponse))
                  (pointer {| Response_Projects := [created] |}) []
                  (connectTimeOut pkg) (readWriteTimeout pkg) ""
                  (start false api1 [replied 200 "<projects/>" true]))).
  exists (bare GET "https://bi.example/x" "tok-1"), 200, "<projects/>".
  split; [reflexivity|]. split.
  - eexists _, _, _. repeat split; reflexivity.
  - split; [lia|reflexivity].
Defined.

Lemma makeRequest_silent_without_Debug_witness :
  stdout (snd (makeRequest (pkg := pkg) "https://bi.example/x" POST (Some "<x/>")
                 (pointer (zero : QueryProjectsResponse)) []
                 (connectTimeOut pkg) (readWriteTimeout pkg) ""
                 (start false api1 [replied 200 "<ok/>" true])))
  = [].
Proof.
  exact (makeRequest_silent_without_Debug (pkg := pkg) "https://bi.example/x" POST
           (Some "<x/>") (pointer (zero : QueryProjectsResponse)) []
           (connectTimeOut pkg) (readWriteTimeout pkg) ""
           (start false api1 [replied 200 "<ok/>" true]) eq_refl).
Defined.

Lemma makeRequest_Debug_trace_witness :
  stdout (snd (makeRequest (pkg := pkg) "https://bi.example/x" POST (Some "<x/>")
                 (pointer (zero : QueryProjectsResponse)) []
                 (connectTimeOut pkg) (readWriteTimeout pkg) ""
                 (start true api1 [replied 200 "<ok" false])))
  = [ "POST:https://bi.example/x" +:+ LF;
      "<x/>" +:+ LF;
      "X-Tableau-Auth:tok-1" +:+ LF;
      "t4g Response:<ok" +:+ LF ].
Proof.
  exact (makeRequest_Debug_trace (pkg := pkg) "https://bi.example/x" POST
           (Some "<x/>") (pointer (zero : QueryProjectsResponse)) []
           (connectTimeOut pkg) (readWriteTimeout pkg) ""
           (start true api1 [replied 200 "<ok" false])
           (Header_Add lib auth_header "tok-1"
              (Header_Add lib content_length_header "4"
                 {| Method := POST; URL := "https://bi.example/x";
                    Body := Some "<x/>"; Header := ∅ |}))
           {| StatusCode := 200; Resp_Body := ("<ok", false) |}
           ([], 0%nat) ([], 0%nat) "<ok" (Some "unexpected EOF")
           eq_refl eq_refl eq_refl eq_refl).
Defined.


Lemma makeRequest_panics_iff_witness :
  fst (makeRequest (pkg := pkg) "https://bi.example/x" GET None
         (@nil_pointer Datasource) []
         (connectTimeOut pkg) (readWriteTimeout pkg) "csv"
         (start false api1 [replied 200 "a,b" true]))
  = Panics.
Proof.
  apply (proj2 (makeRequest_panics_iff (pkg := pkg) "https://bi.example/x" GET
                  None (@nil_pointer Datasource) []
                  (connectTimeOut pkg) (readWriteTimeout pkg) "csv"
                  (start false api1 [replied 200 "a,b" true]))).
  split; [reflexivity|]. split; [now left|].
  exists (bare GET "https://bi.example/x" "tok-1"), 200, "a,b".
  split; [reflexivity|]. split; [|lia].
  eexists _, _, _. repeat split; reflexivity.
Defined.

Lemma operations_keep_session_witness :
  let final :=
    snd (Signin (pkg := pkg) "alice" "secret" "marketing" ""
           (start false api1 [replied 200 "<tok-2>" true])) in
  Server (session final) = "https://bi.example" /\
  Version (session final) = "2.8" /\
  Boundary (session final) = "XyZ" /\
  OmitDefaultSiteName (session final) = false /\
  DefaultSiteName (session final) = "" /\
  Debug final = false.
Proof.
  exact (proj1 (operations_keep_session (pkg := pkg))
           "alice" "secret" "marketing" ""
           (start false api1 [replied 200 "<tok-2>" true])).
Defined.

Lemma GetProjectByID_first_match_witness :
  let st := start false api1 [replied 200 "<portfolio/>" true] in
  QueryProjects (pkg := pkg) "s7" st
  = (Returns (portfolio, None), snd (QueryProjects (pkg := pkg) "s7" st)) /\
  GetProjectByID (pkg := pkg) "s7" "p7" st
  = (Returns ({| Project_ID := "p7"; Project_Name := "Audit" |}, None),
     snd (QueryProjects (pkg := pkg) "s7" st)) /\
  GetProjectByID (pkg := pkg) "s7" "p8" st
  = (Returns (zero, Some (Errorf "Project with ID 'p8' Not Found")),
     snd (QueryProjects (pkg := pkg) "s7" st)).
Proof.
  intros st.
  assert (Hquery : QueryProjects (pkg := pkg) "s7" st
                   = (Returns (portfolio, None),
                      snd (QueryProjects (pkg := pkg) "s7" st)))
    by reflexivity.
  split; [exact Hquery|]. split.
  - apply (proj1 (GetProjectByID_first_match (pkg := pkg) "s7" "p7" st _
                    portfolio Hquery)
             [{| Project_ID := "p6"; Project_Name := "Ops" |}]
             {| Project_ID := "p7"; Project_Name := "Audit" |}
             [{| Project_ID := "p7"; Project_Name := "Archive" |}]).
    + reflexivity.
    + reflexivity.
    + intros other [<-|[]]. discriminate.
  - apply (proj2 (GetProjectByID_first_match (pkg := pkg) "s7" "p8" st _
                    portfolio Hquery)).
    intros other [<-|[<-|[<-|[]]]]; discriminate.
Defined.

Lemma project_lookup_passes_query_error_witness :
  let st := start false api1 [replied 404 "no such site" true] in
  fst (QueryProjects (pkg := pkg) "s0" st) = Returns ([], Some ErrDoesNotExist) /\
  fst (GetProjectByName (pkg := pkg) "s0" "Audit" st)
  = Returns (zero, Some ErrDoesNotExist) /\
  fst (GetProjectByID (pkg := pkg) "s0" "p7" st)
  = Returns (zero, Some ErrDoesNotExist).
Proof.
  intros st.
  destruct (project_lookup_passes_query_error (pkg := pkg) "s0" "Audit" "p7" st
              (bare GET "https://bi.example/api/2.8/sites/s0/projects" "tok-1")
              404 "no such site" eq_refl)
    as (err & Hquery & Hname & HID & Hsentinel).
  - eexists _, _, _. repeat split; reflexivity.
  - lia.
  - rewrite (Hsentinel eq_refl) in Hquery, Hname, HID. now repeat split.
Defined.

Lemma QueryViewData_reads_csv_witness :
  let st := start false api1 [replied 200 "region,sales" true] in
  fst (QueryViewData (pkg := pkg) "s7" "v3" st) = Returns ("region,sales", None) /\
  map (fun cr => (connectTimeout (fst cr), rwTimeout (fst cr)))
    (sent (QueryViewData (pkg := pkg) "s7" "v3") st)
  = [(60000000000, 60000000000)].
Proof.
  intros st.
  destruct (QueryViewData_reads_csv (pkg := pkg) "s7" "v3" st (fun r => r)
              (bare GET "https://bi.example/api/2.8/sites/s7/views/v3/data" "tok-1")
              200 "region,sales" eq_refl eq_refl)
    as [Hreader Hsent].
  - eexists _, _, _. repeat split; reflexivity.
  - lia.
  - split; [exact Hreader|]. now rewrite Hsent.
Defined.

Lemma CreateProject_pointer_witness :
  CreateProject (pkg := pkg) "s7" {| Project_ID := ""; Project_Name := "" |}
    (start false api1 [replied 201 "<project/>" true])
  = (Returns (None, Some (XMLError "no name")),
     start false api1 [replied 201 "<project/>" true])
  /\ fst (CreateProject (pkg := pkg) "s7"
            {| Project_ID := ""; Project_Name := "Audit" |}
            (start false api1 [replied 201 "<project/>" true]))
     = Returns (Some created, None)
  /\ exists err,
       fst (CreateProject (pkg := pkg) "s7"
              {| Project_ID := ""; Project_Name := "Audit" |}
              (start false api1 [replied 409 "<error/>" true]))
       = Returns (Some zero, Some err).
Proof.
  split; [|split].
  - exact (CreateProject_pointer (pkg := pkg) "s7"
             {| Project_ID := ""; Project_Name := "" |}
             (start false api1 [replied 201 "<project/>" true])).
  - pose proof (CreateProject_pointer (pkg := pkg) "s7"
                  {| Project_ID := ""; Project_Name := "Audit" |}
                  (start false api1 [replied 201 "<project/>" true])) as Hcreate.
    cbn in Hcreate. destruct Hcreate as [_ Hanswered].
    edestruct Hanswered as [Hbelow _].
    + reflexivity.
    + eexists _, _, _. repeat split; reflexivity.
    + apply Hbelow. reflexivity.
  - pose proof (CreateProject_pointer (pkg := pkg) "s7"
                  {| Project_ID := ""; Project_Name := "Audit" |}
                  (start false api1 [replied 409 "<error/>" true])) as Hcreate.
    cbn in Hcreate. destruct Hcreate as [_ Hanswered].
    edestruct Hanswered as [_ Habove].
    + reflexivity.
    + eexists _, _, _. repeat split; reflexivity.
    + apply Habove. discriminate.
Defined.

Lemma publishDatasource_request_witness :
  let st := start false api1 [replied 201 "<datasource/>" true] in
  length (sent (publishDatasource (pkg := pkg) "s7" {| Datasource_Name := "Sales" |}
                  "<rows/>" "hyper" false) st) = 1%nat /\
  forall client req,
    In (client, req)
      (sent (publishDatasource (pkg := pkg) "s7" {| Datasource_Name := "Sales" |}
               "<rows/>" "hyper" false) st) ->
    URL req
    = "https://bi.example/api/2.8/sites/s7/datasources?datasourceType=hyper&overwrite=false"
    /\ Body req
       = Some (multipart "XyZ" "<tsRequest datasource='Sales'/>" "Sales" "<rows/>").
Proof.
  intros st. split; [reflexivity|].
  intros client req Hsent.
  destruct (publishDatasource_request (pkg := pkg) "s7"
              {| Datasource_Name := "Sales" |} "<rows/>" "hyper" false st
              client req Hsent)
    as (xml & Hxml & _ & Hurl & Hbody).
  injection Hxml as <-. now split.
Defined.

Lemma Signin_credentials_witness :
  exists credentials,
    Cred_Name credentials = "alice" /\
    Impersonate credentials = Some {| User_ID := "u9" |} /\
    exists client req,
      sent (Signin (pkg := pkg) "alice" "secret" "marketing" "u9")
        (start false api1 [])
      = [(client, req)] /\
      Method req = "POST" /\
      URL req = "https://bi.example/api/2.8/auth/signin" /\
      Body req = Some "<tsRequest name='alice' user='u9'/>".
Proof.
  destruct (Signin_credentials (pkg := pkg) "alice" "secret" "marketing" "u9"
              (start false api1 []))
    as (credentials & Hname & _ & _ & _ & Huser & Hsent).
  exists credentials. split; [exact Hname|].
  specialize (Huser ltac:(discriminate)).
  split; [exact Huser|].
  destruct credentials as [name password token impersonate site].
  cbn in Hname, Huser. subst name impersonate.
  exact Hsent.
Defined.

Lemma Signout_after_Signin_witness :
  let st := start false api1 [replied 200 "<tok-2>" true; replied 204 "" true] in
  let signed := snd (Signin (pkg := pkg) "alice" "secret" "marketing" "" st) in
  length (sent (Signout (pkg := pkg)) signed) = 1%nat /\
  (forall client req,
      In (client, req) (sent (Signout (pkg := pkg)) signed) ->
      URL req = "https://bi.example/api/2.8/auth/signout" /\
      Body req = None /\
      Header_Values lib auth_header req = ["<tok-2>"]) /\
  AuthToken (session (snd (Signout (pkg := pkg) signed))) = "<tok-2>".
Proof.
  intros st signed.
  assert (Hsignin : Signin (pkg := pkg) "alice" "secret" "marketing" "" st
                    = (Returns None, signed)) by reflexivity.
  split; [reflexivity|]. split.
  - intros client req Hsent.
    destruct (Signout_after_Signin (pkg := pkg) "alice" "secret" "marketing" ""
                st signed client req Hsignin Hsent ltac:(discriminate))
      as (_ & Hurl & Hbody & Hauth & _).
    now repeat split.
  - reflexivity.
Defined.

Lemma delete_and_Signout_succeed_below_300_witness :
  fst (delete (pkg := pkg) "https://bi.example/api/2.8/sites/s7"
         (start false api1 [replied 204 "" true]))
  = Returns None
  /\ fst (delete (pkg := pkg) "https://bi.example/api/2.8/sites/s7"
            (start false api1 [replied 302 "" true]))
     <> Returns None.
Proof.
  split.
  - apply (proj1 (delete_and_Signout_succeed_below_300 (pkg := pkg)
                    (start false api1 [replied 204 "" true])
                    (bare DELETE "https://bi.example/api/2.8/sites/s7" "tok-1")
                    204 ""
                    ltac:(eexists _, _, _; repeat split; reflexivity))
             "https://bi.example/api/2.8/sites/s7" eq_refl).
    lia.
  - intros Hok.
    apply (proj1 (delete_and_Signout_succeed_below_300 (pkg := pkg)
                    (start false api1 [replied 302 "" true])
                    (bare DELETE "https://bi.example/api/2.8/sites/s7" "tok-1")
                    302 ""
                    ltac:(eexists _, _, _; repeat split; reflexivity))
             "https://bi.example/api/2.8/sites/s7" eq_refl) in Hok.
    lia.
Defined.

Lemma makeRequest_headers_witness :
  let headers := [("Accept", "application/xml"); ("Accept", "text/csv")] in
  length (sent (makeRequest (pkg := pkg) "https://bi.example/x" POST (Some "<x/>")
                  (pointer (zero : QueryProjectsResponse)) headers
                  (connectTimeOut pkg) (readWriteTimeout pkg) "")
            (start false api1 [])) = 1%nat /\
  forall client req,
    In (client, req)
      (sent (makeRequest (pkg := pkg) "https://bi.example/x" POST (Some "<x/>")
               (pointer (zero : QueryProjectsResponse)) headers
               (connectTimeOut pkg) (readWriteTimeout pkg) "")
         (start false api1 [])) ->
    Header_Values lib "Accept" req = ["application/xml"; "text/csv"] /\
    Header_Values lib auth_header req = ["tok-1"] /\
    Header_Values lib "Cookie" req = [].
Proof.
  intros headers. split; [reflexivity|].
  intros client req Hsent.
  destruct (makeRequest_headers (pkg := pkg) "https://bi.example/x" POST
              (Some "<x/>") (pointer (zero : QueryProjectsResponse)) headers
              (connectTimeOut pkg) (readWriteTimeout pkg) ""
              (start false api1 []) client req Hsent) as [Hall _].
  rewrite !Hall. repeat split.
Defined.

End RoughRuns.
